(** * YouTube channel video tools: extractor and URL differ

    A shallow embedding of [html_youtube_parser.py] and [diff_json.py].

    Python values coming out of [json.load] are the inductive [json];
    a Python [str] is a Rocq [string], one [ascii] per character;
    exceptions are an explicit [result] type; standard output is a list
    of lines; the file system is a function from paths to files; the
    library entry points the scripts call ([json.loads], [json.dump],
    [BeautifulSoup], [str] and [argparse]) are the fields of a record
    [library].

    The first part holds the definitions, in the order of the sources;
    the second part holds the lemmas and the theorems. *)

From Stdlib Require Import Bool Arith ZArith Lia List Ascii String.
From Stdlib Require Import Sorting.Sorted Structures.OrderedTypeEx.
From Corelib Require Import SpecFloat.
Import ListNotations.

#[global] Set Warnings "-register-all".

Local Open Scope string_scope.
Local Open Scope list_scope.

(** ** Python strings *)

(** [s.startswith(p)]. *)
Fixpoint startswith (s p : string) {struct p} : bool :=
  match p with
  | EmptyString => true
  | String a p' =>
      match s with
      | EmptyString => false
      | String b s' => Ascii.eqb b a && startswith s' p'
      end
  end.

(** [sub in s] for two [str] operands: substring test. *)
Fixpoint str_in (sub s : string) : bool :=
  if startswith s sub then true
  else match s with
       | EmptyString => false
       | String _ s' => str_in sub s'
       end.

(** [s.split(sep)] for a one-character separator. *)
Fixpoint split (sep : ascii) (s : string) : list string :=
  match s with
  | EmptyString => [EmptyString]
  | String c s' =>
      if Ascii.eqb c sep then EmptyString :: split sep s'
      else match split sep s' with
           | h :: t => String c h :: t
           | [] => [String c EmptyString]
           end
  end.

(** Truth value of a [str]: the empty string is false. *)
Definition str_truthy (s : string) : bool :=
  match s with EmptyString => false | String _ _ => true end.

(** ** URL normalizer ([html_youtube_parser.py]) *)

Definition watch_prefix : string := "https://www.youtube.com/watch?v=".

(** The group [([^&]+)], matched greedily from the start of [s]: the
    longest run of characters other than [&]. *)
Fixpoint take_id (s : string) : string :=
  match s with
  | EmptyString => EmptyString
  | String c s' =>
      if Ascii.eqb c "&" then EmptyString else String c (take_id s')
  end.

(** The pattern [[?&]v=([^&]+)] anchored at the start of [s]; the result
    is group 1. *)
Definition match_here (s : string) : option string :=
  match s with
  | String c (String c1 (String c2 rest)) =>
      if (Ascii.eqb c "?" || Ascii.eqb c "&")
         && Ascii.eqb c1 "v" && Ascii.eqb c2 "="
      then if str_truthy (take_id rest) then Some (take_id rest) else None
      else None
  | _ => None
  end.

(** [re.search(r'[?&]v=([^&]+)', s)]: the leftmost match. *)
Fixpoint re_search (s : string) : option string :=
  match match_here s with
  | Some g => Some g
  | None =>
      match s with
      | EmptyString => None
      | String _ s' => re_search s'
      end
  end.

(** [video_id_from_url]: [match.group(1) if match else None]. *)
Definition video_id_from_url (url : string) : option string :=
  re_search url.

(** Truth value of the result of [video_id_from_url]. *)
Definition id_truthy (o : option string) : bool :=
  match o with Some s => str_truthy s | None => false end.

Definition clean_youtube_url (url : string) : string :=
  if negb (str_truthy url) then url
  else
    let video_id := video_id_from_url url in
    match video_id with
    | Some id =>
        if str_truthy id then watch_prefix ++ id
        else if str_in "&" url then hd EmptyString (split "&" url)
        else url
    | None =>
        if str_in "&" url then hd EmptyString (split "&" url)
        else url
    end.

(** ** Python values and exceptions *)

(** A value returned by [json.load]/[json.loads].  A [dict] is the list of
    its items in insertion order; the keys of a dict are distinct, and the
    operations below read the first binding of a key, so they are defined
    on every list.  Python's [None] is [JNull]. *)
Inductive json : Type :=
| JNull
| JBool (b : bool)
| JInt (z : Z)
| JFloat (f : spec_float)
| JStr (s : string)
| JList (l : list json)
| JDict (d : list (string * json)).

(** The exception classes the two scripts can meet; all of them derive
    from [Exception].  [RecursionError] and [ValueError] are what
    [json.loads] raises, beside [JSONDecodeError], on a text nested too
    deep or on a number with too many digits. *)
Inductive exn : Type :=
| KeyError | TypeError | AttributeError | IndexError | OSError
| RecursionError | ValueError.

Inductive result (A : Type) : Type :=
| Ok (a : A)
| Raise (e : exn).
Arguments Ok {A} a.
Arguments Raise {A} e.

Definition bind {A B : Type} (r : result A) (k : A -> result B) : result B :=
  match r with
  | Ok a => k a
  | Raise e => Raise e
  end.

Notation "x <- r ;; k" := (bind r (fun x => k))
  (at level 61, r at next level, right associativity).

(** [except Exception]: does the handler catch [e]? *)
Definition is_Exception (e : exn) : bool :=
  match e with
  | KeyError | TypeError | AttributeError | IndexError | OSError
  | RecursionError | ValueError => true
  end.

Fixpoint dict_lookup (k : string) (d : list (string * json)) : option json :=
  match d with
  | [] => None
  | (k', v) :: d' => if String.eqb k k' then Some v else dict_lookup k d'
  end.

(** The keys of a dict, each once, in insertion order. *)
Fixpoint dict_keys (d : list (string * json)) (seen : list string)
  : list string :=
  match d with
  | [] => []
  | (k, _) :: d' =>
      if existsb (String.eqb k) seen then dict_keys d' seen
      else k :: dict_keys d' (k :: seen)
  end.

(** [v.get(k, default)]: only a dict has the method. *)
Definition dict_get (v : json) (k : string) (default : json) : result json :=
  match v with
  | JDict d =>
      match dict_lookup k d with
      | Some x => Ok x
      | None => Ok default
      end
  | _ => Raise AttributeError
  end.

(** [v[k]] for a string key [k]. *)
Definition getitem_str (v : json) (k : string) : result json :=
  match v with
  | JDict d =>
      match dict_lookup k d with
      | Some x => Ok x
      | None => Raise KeyError
      end
  | _ => Raise TypeError
  end.

(** [v[0]]: the first element of a list, the first character of a string;
    a dict from JSON has only string keys, so the key [0] is missing. *)
Definition getitem_0 (v : json) : result json :=
  match v with
  | JList (x :: _) => Ok x
  | JList [] => Raise IndexError
  | JStr (String c _) => Ok (JStr (String c EmptyString))
  | JStr EmptyString => Raise IndexError
  | JDict _ => Raise KeyError
  | _ => Raise TypeError
  end.

Fixpoint chars (s : string) : list json :=
  match s with
  | EmptyString => []
  | String c s' => JStr (String c EmptyString) :: chars s'
  end.

(** The items a [for] loop over [v] visits. *)
Definition py_iter (v : json) : result (list json) :=
  match v with
  | JList l => Ok l
  | JDict d => Ok (map JStr (dict_keys d []))
  | JStr s => Ok (chars s)
  | _ => Raise TypeError
  end.

(** Truth value of a value. *)
Definition truthy (v : json) : bool :=
  match v with
  | JNull => false
  | JBool b => b
  | JInt z => negb (Z.eqb z 0)
  | JFloat (S754_zero _) => false
  | JFloat _ => true
  | JStr s => str_truthy s
  | JList [] => false
  | JList _ => true
  | JDict [] => false
  | JDict _ => true
  end.

(** [v == s] for a string literal [s]. *)
Definition eq_str (v : json) (s : string) : bool :=
  match v with
  | JStr t => String.eqb t s
  | _ => false
  end.

(** *** Numbers, equality of keys and order

    A number is read as an extended dyadic [m * 2^e]; [bool] is a subclass
    of [int]. *)
Inductive dyadic : Type :=
| NegInf | Fin (m e : Z) | PosInf | NaN.

Definition as_num (v : json) : option dyadic :=
  match v with
  | JBool b => Some (Fin (if b then 1 else 0) 0)
  | JInt z => Some (Fin z 0)
  | JFloat (S754_zero _) => Some (Fin 0 0)
  | JFloat (S754_infinity s) => Some (if s then NegInf else PosInf)
  | JFloat S754_nan => Some NaN
  | JFloat (S754_finite s m e) =>
      Some (Fin (if s then Z.neg m else Z.pos m) e)
  | _ => None
  end.

(** Exact comparison; [None] when one side is not a number. *)
Definition num_compare (a b : dyadic) : option comparison :=
  match a, b with
  | NaN, _ | _, NaN => None
  | NegInf, NegInf => Some Eq
  | NegInf, _ => Some Lt
  | _, NegInf => Some Gt
  | PosInf, PosInf => Some Eq
  | PosInf, _ => Some Gt
  | _, PosInf => Some Lt
  | Fin m1 e1, Fin m2 e2 =>
      let e := Z.min e1 e2 in
      Some (Z.compare (m1 * 2 ^ (e1 - e)) (m2 * 2 ^ (e2 - e)))
  end.

(** Is [v] hashable?  Lists and dicts are not. *)
Definition hashable (v : json) : bool :=
  match v with
  | JList _ | JDict _ => false
  | _ => true
  end.

(** Equality of two set members ([a is b or a == b]).  The decoder yields
    one shared object for every [NaN], so two of them are the same key. *)
Definition key_eqb (a b : json) : bool :=
  match a, b with
  | JNull, JNull => true
  | JStr s, JStr t => String.eqb s t
  | _, _ =>
      match as_num a, as_num b with
      | Some NaN, Some NaN => true
      | Some x, Some y =>
          match num_compare x y with
          | Some Eq => true
          | _ => false
          end
      | _, _ => false
      end
  end.

(** [a < b] on set members: strings with strings, numbers with numbers,
    anything else is a [TypeError]. *)
Definition py_lt (a b : json) : result bool :=
  match a, b with
  | JStr s, JStr t => Ok (String.ltb s t)
  | _, _ =>
      match as_num a, as_num b with
      | Some x, Some y =>
          match num_compare x y with
          | Some Lt => Ok true
          | _ => Ok false
          end
      | _, _ => Raise TypeError
      end
  end.

(** *** Sets

    A [set] is the list of its members, pairwise different under
    [key_eqb]; the order of the list is the order of insertion and is
    observed only through [sorted] and [len]. *)
Definition pyset : Type := list json.

Definition set_mem (k : json) (s : pyset) : bool := existsb (key_eqb k) s.

(** [s.add(k)]. *)
Definition set_add (s : pyset) (k : json) : result pyset :=
  if hashable k then Ok (if set_mem k s then s else s ++ [k])
  else Raise TypeError.

(** [a - b]. *)
Definition set_difference (a b : pyset) : pyset :=
  filter (fun k => negb (set_mem k b)) a.

(** [a & b]: the members of the smaller operand (of the right one on a
    tie) that are in the other. *)
Definition set_intersection (a b : pyset) : pyset :=
  if Nat.ltb (List.length a) (List.length b)
  then filter (fun k => set_mem k b) a
  else filter (fun k => set_mem k a) b.

(** [sorted(list(s))] by insertion, with [<] as the only comparison.
    Where [<] orders the members totally (strings, or numbers without a
    [NaN]) the sorted list is the same whatever the order the set is
    iterated in and whatever the algorithm, and this is the list
    [sorted] returns.  With a [NaN] among the members the list CPython
    returns depends on the iteration order of the set; the definition
    then gives one arrangement only, and nothing below is stated for such
    members. *)
Fixpoint py_insert (x : json) (l : list json) : result (list json) :=
  match l with
  | [] => Ok [x]
  | y :: l' =>
      lt <- py_lt x y ;;
      if (lt : bool) then Ok (x :: y :: l')
      else (r <- py_insert x l' ;; Ok (y :: r))
  end.

Fixpoint py_sorted (l : list json) : result (list json) :=
  match l with
  | [] => Ok []
  | x :: l' => r <- py_sorted l' ;; py_insert x r
  end.

(** [k in v] for a string [k]. *)
Definition contains_str (v : json) (k : string) : result bool :=
  match v with
  | JDict d =>
      Ok (match dict_lookup k d with Some _ => true | None => false end)
  | JList l => Ok (existsb (fun x => eq_str x k) l)
  | JStr s => Ok (str_in k s)
  | _ => Raise TypeError
  end.
(** ** The extractor ([html_youtube_parser.py]) *)

(** A record of the output, [{'url': url}]. *)
Record video : Type := { url : string }.

(** A line printed on standard output; the text of an exception is not
    modelled, its class is. *)
Inductive line : Type :=
| ErrFileNotFound (path : string)   (* Error: File '...' not found. *)
| ErrReadingFile                    (* Error reading file: ... *)
| MsgFallback                       (* JSON extraction failed, trying HTML parsing... *)
| ErrExtractJson (e : exn)          (* Error extracting from JSON: ... *)
| ErrVideoInfo (e : exn)            (* Error extracting video info: ... *)
| MsgParsing (path : string)        (* Parsing HTML file: ... *)
| MsgNoVideos                       (* No videos found or error occurred during parsing. *)
| MsgSuccess (n : nat) (path : string)
| MsgPreviewHeader
| MsgPreview (i : nat) (u : string)
| ErrWriting                        (* Error writing output file: ... *)
| MsgUsage
| MsgExample
| ErrJsonNotFound (path : string)   (* differ: Error: File '...' not found. *)
| ErrInvalidJson (path : string).   (* differ: Error: Invalid JSON in '...' *)

(** An element of the parsed page: its name, its attributes and
    [tag.string]. *)
Record tag : Type := {
  tag_name : string;
  tag_attrs : list (string * string);
  tag_string : option string
}.

(** The parsed page: its elements in document order. *)
Definition soup : Type := list tag.

(** The arguments [argparse] hands to [main]. *)
Record namespace : Type := { html_file : string; output_file : string }.

(** What the scripts take from outside this repository.  [json_loads]
    is [json.loads]: [Ok (Some v)] when the text parses, [Ok None] when
    it raises [JSONDecodeError], [Raise e] when it raises another
    exception ([RecursionError] on a text nested too deep, [ValueError]
    on a number with too many digits).  [json_dump] is
    [json.dump(v, f, indent=2, ensure_ascii=False)] on a file opened with
    [encoding='utf-8']: [inr text] when the dump completes and the file
    holds [text], [inl text] when it raises after [text] has reached the
    file (a string the encoding refuses). *)
Record library : Type := {
  json_loads : string -> result (option json);
  json_dump : json -> string + string;
  BeautifulSoup : string -> soup;       (* BeautifulSoup(text, 'html.parser') *)
  py_str : json -> string;              (* str(v), as an f-string field *)
  parse_args : list string -> Z + namespace  (* exit status, or the arguments *)
}.

(** A file named by a path: [Missing] when [open] raises
    [FileNotFoundError], [Unreadable] when [open] or [read] raises
    another exception (a directory, no permission, bytes that are not
    UTF-8), [Text content] when the file is read as [content]. *)
Inductive file : Type :=
| Missing
| Unreadable
| Text (content : string).

(** The files by path.  A path stands for the file it names: two paths
    that name one file are taken to be the same string. *)
Definition filesystem : Type := string -> file.

(** The files after [open(path, 'w')] and the writing of [text]. *)
Definition write_file (files : filesystem) (path text : string)
  : filesystem :=
  fun p => if String.eqb p path then Text text else files p.

Fixpoint attr_lookup (k : string) (attrs : list (string * string))
  : option string :=
  match attrs with
  | [] => None
  | (k', v) :: attrs' =>
      if String.eqb k k' then Some v else attr_lookup k attrs'
  end.

(** [soup.find_all(name)]. *)
Definition find_all (sp : soup) (name : string) : list tag :=
  filter (fun t => String.eqb (tag_name t) name) sp.

(** [soup.find_all('a', href=re.compile(r'/watch\?v='))]: the pattern has
    no operator left but the escaped [?], so the search is a substring
    test. *)
Definition find_all_watch_links (sp : soup) : list tag :=
  filter (fun t =>
            String.eqb (tag_name t) "a" &&
            match attr_lookup "href" (tag_attrs t) with
            | Some h => str_in "/watch?v=" h
            | None => false
            end) sp.

(** [link.get(k, default)]. *)
Definition tag_get (t : tag) (k default : string) : string :=
  match attr_lookup k (tag_attrs t) with
  | Some v => v
  | None => default
  end.

(** *** Strings: [find] and slices *)

Fixpoint skip (n : nat) (s : string) : string :=
  match n with
  | O => s
  | S n' =>
      match s with
      | EmptyString => EmptyString
      | String _ s' => skip n' s'
      end
  end.

Fixpoint take (n : nat) (s : string) : string :=
  match n with
  | O => EmptyString
  | S n' =>
      match s with
      | EmptyString => EmptyString
      | String c s' => String c (take n' s')
      end
  end.

Fixpoint find_from (sub s : string) (i : nat) : option nat :=
  if startswith s sub then Some i
  else match s with
       | EmptyString => None
       | String _ s' => find_from sub s' (S i)
       end.

(** [s.find(sub, start)]; [None] is [-1]. *)
Definition str_find (s sub : string) (start : nat) : option nat :=
  if Nat.ltb (String.length s) start then None
  else find_from sub (skip start s) start.

(** [s[a:b]] for [0 <= a] and [0 <= b]. *)
Definition slice (s : string) (a b : nat) : string :=
  take (b - a) (skip a s).

(** *** [extract_video_info] *)

Definition extract_video_info (L : library) (video_renderer : json)
  : list line * option video :=
  match dict_get video_renderer "videoId" (JStr EmptyString) with
  | Raise e => ([ErrVideoInfo e], None)
  | Ok video_id =>
      let u := if truthy video_id
               then (watch_prefix ++
                     match video_id with
                     | JStr s => s
                     | v => py_str L v
                     end)%string
               else EmptyString in
      if str_truthy u then ([], Some {| url := u |}) else ([], None)
  end.

(** *** [extract_videos_from_json]

    The state of the walk: the list [videos] and the lines printed. *)
Definition walk_state : Type := (list video * list line)%type.

(** [for item in items:] *)
Fixpoint items_loop (L : library) (items : list json) (st : walk_state)
  : walk_state * option exn :=
  match items with
  | [] => (st, None)
  | item :: rest =>
      match dict_get item "gridVideoRenderer" (JDict []) with
      | Raise e => (st, Some e)
      | Ok video_renderer =>
          if truthy video_renderer then
            let (printed, video_info) := extract_video_info L video_renderer in
            let st1 := (fst st, snd st ++ printed) in
            match video_info with
            | Some v => items_loop L rest (fst st1 ++ [v], snd st1)
            | None => items_loop L rest st1
            end
          else items_loop L rest st
      end
  end.

(** [for content_item in contents:] *)
Fixpoint contents_loop (L : library) (contents : list json) (st : walk_state)
  : walk_state * option exn :=
  match contents with
  | [] => (st, None)
  | content_item :: rest =>
      match (item_section <- dict_get content_item "itemSectionRenderer" (JDict []) ;;
             c <- dict_get item_section "contents" (JList [JDict []]) ;;
             c0 <- getitem_0 c ;;
             grid_renderer <- dict_get c0 "gridRenderer" (JDict []) ;;
             items <- dict_get grid_renderer "items" (JList []) ;;
             py_iter items) with
      | Raise e => (st, Some e)
      | Ok items =>
          match items_loop L items st with
          | (st', None) => contents_loop L rest st'
          | (st', Some e) => (st', Some e)
          end
      end
  end.

(** The body run for the tab whose title is ['Videos']. *)
Definition videos_tab (L : library) (tab_renderer : json) (st : walk_state)
  : walk_state * option exn :=
  match (content <- dict_get tab_renderer "content" (JDict []) ;;
         section_list <- dict_get content "sectionListRenderer" (JDict []) ;;
         contents <- dict_get section_list "contents" (JList []) ;;
         py_iter contents) with
  | Raise e => (st, Some e)
  | Ok contents => contents_loop L contents st
  end.

(** [for tab in tabs:], left by [break] after the first tab selected. *)
Fixpoint tabs_loop (L : library) (tabs : list json) (st : walk_state)
  : walk_state * option exn :=
  match tabs with
  | [] => (st, None)
  | tab :: rest =>
      match (tab_renderer <- dict_get tab "tabRenderer" (JDict []) ;;
             title <- dict_get tab_renderer "title" JNull ;;
             Ok (tab_renderer, title)) with
      | Raise e => (st, Some e)
      | Ok (tab_renderer, title) =>
          if eq_str title "Videos" then videos_tab L tab_renderer st
          else tabs_loop L rest st
      end
  end.

Definition possible_paths : list (list string) :=
  [ ["twoColumnBrowseResultsRenderer"; "tabs"];
    ["contents"; "twoColumnBrowseResultsRenderer"; "tabs"] ].

(** [for key in path: current = current[key]] *)
Fixpoint follow_path (current : json) (path : list string) : result json :=
  match path with
  | [] => Ok current
  | key :: path' => next <- getitem_str current key ;; follow_path next path'
  end.

(** [for path in possible_paths:] with its [except (KeyError, TypeError)];
    [None] when [tabs] is still [None] after the loop. *)
Fixpoint find_tabs (data : json) (paths : list (list string))
  : result (option json) :=
  match paths with
  | [] => Ok None
  | path :: paths' =>
      match follow_path data path with
      | Ok current => Ok (Some current)
      | Raise KeyError | Raise TypeError => find_tabs data paths'
      | Raise e => Raise e
      end
  end.

(** The [try] block of [extract_videos_from_json]. *)
Definition walk (L : library) (data : json) : walk_state * option exn :=
  let st : walk_state := ([], []) in
  match (contents <- dict_get data "contents" (JDict []) ;;
         find_tabs data possible_paths) with
  | Raise e => (st, Some e)
  | Ok None => (st, None)
  | Ok (Some tabs) =>
      if negb (truthy tabs) then (st, None)
      else match py_iter tabs with
           | Raise e => (st, Some e)
           | Ok l => tabs_loop L l st
           end
  end.

Definition extract_videos_from_json (L : library) (data : json)
  : list line * result (list video) :=
  match walk L data with
  | ((videos, printed), None) => (printed, Ok videos)
  | ((videos, printed), Some e) =>
      if is_Exception e then (printed ++ [ErrExtractJson e], Ok videos)
      else (printed, Raise e)
  end.

(** *** [extract_videos_from_html] *)

(** The body of [for link in video_links:]: the record appended, if any. *)
Definition link_video (link : tag) : option video :=
  let href := tag_get link "href" EmptyString in
  let u := if startswith href "/"
           then ("https://www.youtube.com" ++ href)%string
           else href in
  let u := clean_youtube_url u in
  if str_truthy u && id_truthy (video_id_from_url u)
  then Some {| url := u |}
  else None.

Fixpoint links_loop (video_links : list tag) (videos : list video)
  : list video :=
  match video_links with
  | [] => videos
  | link :: rest =>
      match link_video link with
      | Some v => links_loop rest (videos ++ [v])
      | None => links_loop rest videos
      end
  end.

(** [for video in videos:] with the set [seen_urls]. *)
Fixpoint unique_loop (videos : list video) (seen_urls : list string)
  (unique_videos : list video) : list video :=
  match videos with
  | [] => unique_videos
  | v :: rest =>
      if negb (existsb (String.eqb (url v)) seen_urls)
      then unique_loop rest (seen_urls ++ [url v]) (unique_videos ++ [v])
      else unique_loop rest seen_urls unique_videos
  end.

Definition extract_videos_from_html (sp : soup) : list video :=
  let videos := links_loop (find_all_watch_links sp) [] in
  unique_loop videos [] [].

(** What the design asks of the scanner, stated on its own: of the
    records that share a URL only the first is kept, the order of the
    kept records is unchanged. *)
Fixpoint first_seen (videos : list video) : list video :=
  match videos with
  | [] => []
  | v :: rest =>
      v :: filter (fun w => negb (String.eqb (url w) (url v)))
             (first_seen rest)
  end.

(** *** [parse_youtube_html] *)

Definition start_marker : string := "var ytInitialData = ".
Definition end_marker : string := "};".

(** The text between the markers, when both are found. *)
Definition extract_blob (script_content : string) : option string :=
  match str_find script_content start_marker 0 with
  | None => None
  | Some i =>
      let start_idx := i + String.length start_marker in
      match str_find script_content end_marker start_idx with
      | None => None
      | Some j =>
          let end_idx := j + 1 in
          Some (slice script_content start_idx end_idx)
      end
  end.

(** The condition of the outer [if] of the loop. *)
Definition has_marker (script : tag) : option string :=
  match tag_string script with
  | Some s => if str_truthy s && str_in "ytInitialData" s then Some s else None
  | None => None
  end.

(** [for script in script_tags:]; [Ok (Some videos)] is the [return]
    inside the loop, [Ok None] its normal end. *)
Fixpoint scripts_loop (L : library) (script_tags : list tag)
  : list line * result (option (list video)) :=
  match script_tags with
  | [] => ([], Ok None)
  | script :: rest =>
      match has_marker script with
      | None => scripts_loop L rest
      | Some script_content =>
          match extract_blob script_content with
          | None => scripts_loop L rest
          | Some json_str =>
              match json_loads L json_str with
              | Raise e => ([], Raise e)
              | Ok None => scripts_loop L rest
              | Ok (Some data) =>
                  match extract_videos_from_json L data with
                  | (printed, Raise e) => (printed, Raise e)
                  | (printed, Ok videos) =>
                      match videos with
                      | _ :: _ => (printed, Ok (Some videos))
                      | [] =>
                          let (printed', r) := scripts_loop L rest in
                          (printed ++ printed', r)
                      end
                  end
              end
          end
      end
  end.

Definition parse_youtube_html (L : library) (fs : filesystem)
  (html_file_path : string) : list line * result (list video) :=
  match fs html_file_path with
  | Missing => ([ErrFileNotFound html_file_path], Ok [])
  | Unreadable => ([ErrReadingFile], Ok [])
  | Text html_content =>
      let sp := BeautifulSoup L html_content in
      let script_tags := find_all sp "script" in
      match scripts_loop L script_tags with
      | (printed, Raise e) => (printed, Raise e)
      | (printed, Ok (Some videos)) => (printed, Ok videos)
      | (printed, Ok None) =>
          (printed ++ [MsgFallback], Ok (extract_videos_from_html sp))
      end
  end.

(** *** [main] and the script *)

(** What a run sees and changes: the files, the lines printed and the
    dumps completed (the newest first), each with the records dumped.
    [writable p] says whether [open(p, 'w')] succeeds. *)
Record world : Type := {
  fs : filesystem;
  writable : string -> bool;
  stdout : list line;
  written : list (string * list video)
}.

Definition print (w : world) (ls : list line) : world :=
  {| fs := fs w; writable := writable w;
     stdout := stdout w ++ ls; written := written w |}.

Fixpoint preview (i : nat) (videos : list video) : list line :=
  match videos with
  | [] => []
  | v :: rest => MsgPreview (S i) (url v) :: preview (S i) rest
  end.

(** [{"videos": videos}], the value [main] dumps. *)
Definition output_data (videos : list video) : json :=
  JDict [("videos",
          JList (map (fun v => JDict [("url", JStr (url v))]) videos))].

Definition main (L : library) (args : namespace) (w : world)
  : world * result unit :=
  let w := print w [MsgParsing (html_file args)] in
  let (printed, r) := parse_youtube_html L (fs w) (html_file args) in
  let w := print w printed in
  match r with
  | Raise e => (w, Raise e)
  | Ok [] => (print w [MsgNoVideos], Ok tt)
  | Ok videos =>
      if writable w (output_file args) then
        match json_dump L (output_data videos) with
        | inr text =>
            let w := {| fs := write_file (fs w) (output_file args) text;
                        writable := writable w; stdout := stdout w;
                        written := (output_file args, videos) :: written w |} in
            (print w ([MsgSuccess (List.length videos) (output_file args);
                       MsgPreviewHeader] ++ preview 0 (firstn 5 videos)),
             Ok tt)
        | inl text =>
            let w := {| fs := write_file (fs w) (output_file args) text;
                        writable := writable w; stdout := stdout w;
                        written := written w |} in
            (print w [ErrWriting], Ok tt)
        end
      else (print w [ErrWriting], Ok tt)
  end.

(** The block under [if __name__ == "__main__":] and the exit status of
    the process: [1] after the usage message, the status [argparse] exits
    with when it rejects the arguments, [1] after an uncaught exception,
    [0] when [main] returns. *)
Definition script (L : library) (argv : list string) (w : world)
  : world * Z :=
  if Nat.ltb (List.length argv) 2 then (print w [MsgUsage; MsgExample], 1%Z)
  else match parse_args L (tl argv) with
       | inl status => (w, status)
       | inr args =>
           match main L args w with
           | (w', Ok _) => (w', 0%Z)
           | (w', Raise _) => (w', 1%Z)
           end
       end.
(** ** The differ ([diff_json.py]) *)

(** [load_json_file]: the value loaded, [JNull] for [None]; an error of
    [open] or [read] other than a missing file is not caught ([OSError]
    stands for its class), nor is an exception of [json.load] other than
    [JSONDecodeError]. *)
Definition load_json_file (L : library) (files : filesystem)
  (filepath : string) : list line * result json :=
  match files filepath with
  | Missing => ([ErrJsonNotFound filepath], Ok JNull)
  | Unreadable => ([], Raise OSError)
  | Text content =>
      match json_loads L content with
      | Ok (Some data) => ([], Ok data)
      | Ok None => ([ErrInvalidJson filepath], Ok JNull)
      | Raise e => ([], Raise e)
      end
  end.

(** [for video in data['videos']:] *)
Fixpoint urls_loop (videos : list json) (urls : pyset) : result pyset :=
  match videos with
  | [] => Ok urls
  | v :: rest =>
      match v with
      | JDict d =>
          match dict_lookup "url" d with
          | Some u => urls' <- set_add urls u ;; urls_loop rest urls'
          | None => urls_loop rest urls
          end
      | _ => urls_loop rest urls
      end
  end.

Definition extract_urls (data : json) : result pyset :=
  has_videos <- contains_str data "videos" ;;
  if (has_videos : bool) then
    videos <- getitem_str data "videos" ;;
    match videos with
    | JList l => urls_loop l []
    | _ => Ok []
    end
  else Ok [].

(** The dict returned by [find_url_differences]. *)
Record report : Type := {
  only_in_file1 : list json;
  only_in_file2 : list json;
  common_urls : list json;
  file1_count : nat;
  file2_count : nat;
  common_count : nat
}.

(** The part of [find_url_differences] after the two files are loaded. *)
Definition url_differences (data1 data2 : json) : result (option report) :=
  match data1, data2 with
  | JNull, _ | _, JNull => Ok None
  | _, _ =>
      urls1 <- extract_urls data1 ;;
      urls2 <- extract_urls data2 ;;
      let only1 := set_difference urls1 urls2 in
      let only2 := set_difference urls2 urls1 in
      let common := set_intersection urls1 urls2 in
      s1 <- py_sorted only1 ;;
      s2 <- py_sorted only2 ;;
      sc <- py_sorted common ;;
      Ok (Some {| only_in_file1 := s1;
                  only_in_file2 := s2;
                  common_urls := sc;
                  file1_count := List.length urls1;
                  file2_count := List.length urls2;
                  common_count := List.length common |})
  end.

Definition find_url_differences (L : library) (files : filesystem)
  (file1_path file2_path : string) : list line * result (option report) :=
  match load_json_file L files file1_path with
  | (p1, Raise e) => (p1, Raise e)
  | (p1, Ok data1) =>
      match load_json_file L files file2_path with
      | (p2, Raise e) => (p1 ++ p2, Raise e)
      | (p2, Ok data2) => (p1 ++ p2, url_differences data1 data2)
      end
  end.

(** ** Collections

    The shape of a persisted collection, [{"videos": [{"url": ...}, ...]}],
    and its URLs in the order of the file.  A record may carry other keys
    beside ["url"]. *)
Definition record_url (v : json) : option string :=
  match v with
  | JDict d =>
      match dict_lookup "url" d with
      | Some (JStr u) => Some u
      | _ => None
      end
  | _ => None
  end.

Definition is_record (v : json) : bool :=
  match record_url v with Some _ => true | None => false end.

Definition collection_records (data : json) : option (list json) :=
  match data with
  | JDict d =>
      match dict_lookup "videos" d with
      | Some (JList l) => Some l
      | _ => None
      end
  | _ => None
  end.

Definition is_collection (data : json) : bool :=
  match collection_records data with
  | Some l => forallb is_record l
  | None => false
  end.

Fixpoint records_urls (l : list json) : list string :=
  match l with
  | [] => []
  | v :: rest =>
      match record_url v with
      | Some u => u :: records_urls rest
      | None => records_urls rest
      end
  end.

Definition collection_urls (data : json) : list string :=
  match collection_records data with
  | Some l => records_urls l
  | None => []
  end.

(** The order of Python on [str]. *)
Definition str_lt (s t : string) : Prop := String.ltb s t = true.

(** Sets of strings, as the lists [pyset] holds when every member is a
    string: insertion, difference, intersection and sorting. *)
Definition str_mem (u : string) (s : list string) : bool :=
  existsb (String.eqb u) s.

Definition str_add (s : list string) (u : string) : list string :=
  if str_mem u s then s else s ++ [u].

Definition str_difference (a b : list string) : list string :=
  filter (fun u => negb (str_mem u b)) a.

Definition str_intersection (a b : list string) : list string :=
  if Nat.ltb (List.length a) (List.length b)
  then filter (fun u => str_mem u b) a
  else filter (fun u => str_mem u a) b.

Fixpoint str_insert (x : string) (l : list string) : list string :=
  match l with
  | [] => [x]
  | y :: l' => if String.ltb x y then x :: y :: l' else y :: str_insert x l'
  end.

Fixpoint str_sort (l : list string) : list string :=
  match l with
  | [] => []
  | x :: l' => str_insert x (str_sort l')
  end.

(** The URL set of a collection: its URLs, each once. *)
Definition url_set (data : json) : list string :=
  fold_left str_add (collection_urls data) [].

(** The URL an entry of the list [videos] contributes, if any. *)
Definition entry_url (v : json) : option json :=
  match v with
  | JDict d => dict_lookup "url" d
  | _ => None
  end.

Definition hashable_urls (l : list json) : bool :=
  forallb (fun v => match entry_url v with
                    | Some u => hashable u
                    | None => true
                    end) l.

(** ** Tabs

    The title the walker reads from a tab, when the tab and its renderer
    are mappings. *)
Definition tab_title (tab : json) : option json :=
  match dict_get tab "tabRenderer" (JDict []) with
  | Ok tab_renderer =>
      match dict_get tab_renderer "title" JNull with
      | Ok title => Some title
      | Raise _ => None
      end
  | Raise _ => None
  end.

(** A tab object with a title other than ['Videos']. *)
Definition other_tab (tab : json) : bool :=
  match tab_title tab with
  | Some title => negb (eq_str title "Videos")
  | None => false
  end.

(** ** Script segments

    What a script segment yields: the value of the text between the
    markers of a segment that holds the marker, when it parses;
    [Ok None] for a segment without the marker, without a blob or with
    a blob that [json.loads] refuses with [JSONDecodeError]; [Raise e]
    when [json.loads] raises another exception on the blob. *)
Definition script_data (L : library) (script : tag) : result (option json) :=
  match has_marker script with
  | Some script_content =>
      match extract_blob script_content with
      | Some json_str => json_loads L json_str
      | None => Ok None
      end
  | None => Ok None
  end.

(** ** Data used by the examples *)

Definition record_of (u : string) : json := JDict [("url", JStr u)].

Definition collection_of (us : list string) : json :=
  JDict [("videos", JList (map record_of us))].

Definition anchor (href : string) : tag :=
  {| tag_name := "a"; tag_attrs := [("href", href)]; tag_string := None |}.

Definition script_tag (text : string) : tag :=
  {| tag_name := "script"; tag_attrs := []; tag_string := Some text |}.

(** A library that knows two documents, [doc-AB] (where [B] comes twice)
    and [doc-BC], and one page. *)
Definition toy_library : library :=
  {| json_loads := fun s =>
       if String.eqb s "doc-AB"
       then Ok (Some (collection_of ["B"; "A"; "B"]))
       else if String.eqb s "doc-BC"
       then Ok (Some (collection_of ["B"; "C"]))
       else Ok None;
     json_dump := fun _ => inr "dump";
     BeautifulSoup := fun s =>
       if String.eqb s "page"
       then [script_tag "var ytInitialData = {oops};";
             anchor "/watch?v=X"; anchor "/watch?v=X&list=PL1"]
       else [];
     py_str := fun _ => EmptyString;
     parse_args := fun l =>
       match l with
       | [h] => inr {| html_file := h; output_file := "videos.json" |}
       | [h; o] => inr {| html_file := h; output_file := o |}
       | _ => inl 2%Z
       end |}.

Definition toy_files : filesystem :=
  fun p =>
    if String.eqb p "first.json"
    then Text "doc-AB"
    else if String.eqb p "second.json"
    then Text "doc-BC"
    else if String.eqb p "page.html" then Text "page"
    else Missing.

Definition toy_world : world :=
  {| fs := toy_files; writable := fun _ => true; stdout := []; written := [] |}.

(** A blob whose second item is not a mapping. *)
Definition broken_items : json :=
  JDict [("twoColumnBrowseResultsRenderer",
    JDict [("tabs", JList [
      JDict [("tabRenderer", JDict [
        ("title", JStr "Videos");
        ("content", JDict [("sectionListRenderer", JDict [("contents", JList [
          JDict [("itemSectionRenderer", JDict [("contents", JList [
            JDict [("gridRenderer", JDict [("items", JList [
              JDict [("gridVideoRenderer", JDict [("videoId", JStr "a")])];
              JInt 5 ])])] ])])] ])])])])] ])])].

Definition tab_of (title : string) (content : json) : json :=
  JDict [("tabRenderer", JDict [("title", JStr title); ("content", content)])].

(** The content of a tab with one grid of the given items. *)
Definition grid_of (items : list json) : json :=
  JDict [("sectionListRenderer", JDict [("contents", JList [
    JDict [("itemSectionRenderer", JDict [("contents", JList [
      JDict [("gridRenderer", JDict [("items", JList items)])] ])])] ])])].

Definition item_of (video_id : string) : json :=
  JDict [("gridVideoRenderer", JDict [("videoId", JStr video_id)])].

(** ** Shapes used by the further properties *)

(** A blob with the given tabs under the second candidate path. *)
Definition channel_blob (tabs : list json) : json :=
  JDict [("contents",
          JDict [("twoColumnBrowseResultsRenderer",
                  JDict [("tabs", JList tabs)])])].

(** The record of an identifier. *)
Definition video_of (g : string) : video :=
  {| url := watch_prefix ++ g |}.

(** The URL of a record starts with the fixed prefix. *)
Definition has_prefix (v : video) : Prop :=
  startswith (url v) watch_prefix = true.

(** A library whose [json.loads] yields [data] for every text and whose
    page has one script segment with a blob and one link. *)
Definition blob_library (data : json) : library :=
  {| json_loads := fun _ => Ok (Some data);
     json_dump := fun _ => inr "dump";
     BeautifulSoup := fun _ =>
       [script_tag "var ytInitialData = {x};"; anchor "/watch?v=Z"];
     py_str := fun _ => EmptyString;
     parse_args := fun l =>
       match l with
       | [h; o] => inr {| html_file := h; output_file := o |}
       | _ => inl 2%Z
       end |}.


(** ** The differ's command line ([diff_json.py], [main] and below) *)

(** The arguments [argparse] hands to the differ's [main]: [output] is
    [None] without [-o], [quiet] is the flag [-q]. *)
Record diff_namespace : Type := {
  file1 : string;
  file2 : string;
  output : option string;
  quiet : bool
}.

(** What [parser.parse_args()] does with a command line: it returns the
    arguments, or prints the help on standard output and exits with
    status [0] ([-h]), or rejects the command line on standard error and
    exits with status [2]. *)
Inductive parsed : Type :=
| Parsed (args : diff_namespace)
| Help
| Rejected.

(** A line the differ prints; a line of [load_json_file] is a [line]. *)
Inductive diff_line : Type :=
| MsgHelp                           (* the help of [argparse] *)
| Loading (l : line)
| ErrNotExist (path : string)       (* Error: File '...' does not exist. *)
| RuleEq                            (* "=" * 80 *)
| MsgTitle                          (* JSON VIDEO URL DIFF RESULTS *)
| MsgFile (i : nat) (path : string) (n : nat)  (* File i: path (n URLs) *)
| MsgCommon (n : nat)               (* Common URLs: n *)
| Blank
| MsgOnlyIn (path : string) (n : nat)  (* URLs only in path (n): *)
| RuleDash                          (* "-" * 50 *)
| MsgUrl (u : string)               (* two spaces and the URL *)
| MsgIdentical                      (* All URLs are identical ... *)
| QuietFile (i n : nat)             (* File i: n URLs *)
| QuietOnlyIn (i n : nat)           (* Only in File i: n *)
| QuietCommon (n : nat)             (* Common: n *)
| MsgSaved (path : string)          (* Results saved to: ... *)
| ErrSaving.                        (* Error saving results: ... *)

(** What a run of the differ sees and changes.  [exists_] is
    [Path(p).exists()], which is asked before the file is opened and is
    not the same question ([open] fails on a directory, and on the empty
    path, which [Path] reads as the current directory); [openable p]
    says whether [open(p, 'w')] succeeds.  [saved] lists the completed
    dumps, the newest first. *)
Record diff_world : Type := {
  files : filesystem;
  exists_ : string -> bool;
  openable : string -> bool;
  printed : list diff_line;
  saved : list (string * report)
}.

Definition diff_print (w : diff_world) (ls : list diff_line) : diff_world :=
  {| files := files w; exists_ := exists_ w; openable := openable w;
     printed := printed w ++ ls; saved := saved w |}.

(** The dict [results] as a value. *)
Definition report_json (results : report) : json :=
  JDict [("only_in_file1", JList (only_in_file1 results));
         ("only_in_file2", JList (only_in_file2 results));
         ("common_urls", JList (common_urls results));
         ("file1_count", JInt (Z.of_nat (file1_count results)));
         ("file2_count", JInt (Z.of_nat (file2_count results)));
         ("common_count", JInt (Z.of_nat (common_count results)))].

(** Do [open(p, 'w')] and [json.dump(results, ...)] both complete? *)
Definition can_save (L : library) (w : diff_world) (output_file : string)
  (results : report) : bool :=
  openable w output_file
  && match json_dump L (report_json results) with
     | inr _ => true
     | inl _ => false
     end.

(** A replacement field [{v}] of an f-string. *)
Definition format_field (L : library) (v : json) : string :=
  match v with
  | JStr s => s
  | _ => py_str L v
  end.

(** One of the two blocks of [print_results] that list URLs. *)
Definition only_in_lines (L : library) (path : string) (urls : list json)
  : list diff_line :=
  match urls with
  | [] => []
  | _ :: _ =>
      [MsgOnlyIn path (List.length urls); RuleDash]
      ++ map (fun u => MsgUrl (format_field L u)) urls
      ++ [Blank]
  end.

Definition print_results (L : library) (results : report)
  (file1_path file2_path : string) : list diff_line :=
  [RuleEq; MsgTitle; RuleEq;
   MsgFile 1 file1_path (file1_count results);
   MsgFile 2 file2_path (file2_count results);
   MsgCommon (common_count results);
   Blank]
  ++ only_in_lines L file1_path (only_in_file1 results)
  ++ only_in_lines L file2_path (only_in_file2 results)
  ++ match only_in_file1 results, only_in_file2 results with
     | [], [] => [MsgIdentical]
     | _, _ => []
     end.

(** The five lines of [--quiet]. *)
Definition quiet_lines (results : report) : list diff_line :=
  [QuietFile 1 (file1_count results);
   QuietFile 2 (file2_count results);
   QuietOnlyIn 1 (List.length (only_in_file1 results));
   QuietOnlyIn 2 (List.length (only_in_file2 results));
   QuietCommon (common_count results)].

Definition save_results_to_json (L : library) (results : report)
  (output_file : string) (w : diff_world) : diff_world :=
  if openable w output_file then
    match json_dump L (report_json results) with
    | inr text =>
        diff_print {| files := write_file (files w) output_file text;
                      exists_ := exists_ w;
                      openable := openable w; printed := printed w;
                      saved := (output_file, results) :: saved w |}
                   [MsgSaved output_file]
    | inl text =>
        diff_print {| files := write_file (files w) output_file text;
                      exists_ := exists_ w;
                      openable := openable w; printed := printed w;
                      saved := saved w |}
                   [ErrSaving]
    end
  else diff_print w [ErrSaving].

(** The body of [main] once [parse_args] has returned [args]: the world
    it leaves and the value it returns. *)
Definition diff_main (L : library) (args : diff_namespace) (w : diff_world)
  : diff_world * result Z :=
  if negb (exists_ w (file1 args)) then
    (diff_print w [ErrNotExist (file1 args)], Ok 1%Z)
  else if negb (exists_ w (file2 args)) then
    (diff_print w [ErrNotExist (file2 args)], Ok 1%Z)
  else
    let (loading, r) :=
      find_url_differences L (files w) (file1 args) (file2 args) in
    let w := diff_print w (map Loading loading) in
    match r with
    | Raise e => (w, Raise e)
    | Ok None => (w, Ok 1%Z)
    | Ok (Some results) =>
        let w :=
          diff_print w
            (if quiet args then quiet_lines results
             else print_results L results (file1 args) (file2 args)) in
        let w :=
          match output args with
          | Some output_file =>
              if str_truthy output_file
              then save_results_to_json L results output_file w
              else w
          | None => w
          end in
        (w, Ok 0%Z)
    end.

(** [exit(main())]: the exit status of the process, [1] after an uncaught
    exception. *)
Definition exit_status (r : result Z) : Z :=
  match r with
  | Ok status => status
  | Raise _ => 1%Z
  end.

(** The script run on a command line: [main] from its first line, with
    the exits of [argparse], and [exit(main())].  [parser] is
    [parser.parse_args] on [sys.argv[1:]]. *)
Definition diff_script (L : library) (parser : list string -> parsed)
  (argv : list string) (w : diff_world) : diff_world * Z :=
  match parser (tl argv) with
  | Help => (diff_print w [MsgHelp], 0%Z)
  | Rejected => (w, 2%Z)
  | Parsed args =>
      let (w', r) := diff_main L args w in (w', exit_status r)
  end.

(** The text a file holds parses to [data]. *)
Definition holds (L : library) (fs : filesystem) (path : string)
  (data : json) : Prop :=
  exists text, fs path = Text text /\ json_loads L text = Ok (Some data).

(** Two existing files for the examples, with everything else missing. *)
Definition toy_diff_world : diff_world :=
  {| files := toy_files;
     exists_ := fun p =>
       match toy_files p with Missing => false | _ => true end;
     openable := fun _ => true;
     printed := [];
     saved := [] |}.

Definition toy_args (out : option string) (q : bool) : diff_namespace :=
  {| file1 := "first.json"; file2 := "second.json";
     output := out; quiet := q |}.


(** A world in which no file can be saved. *)
Definition read_only_world : diff_world :=
  {| files := toy_files;
     exists_ := exists_ toy_diff_world;
     openable := fun _ => false;
     printed := [];
     saved := [] |}.

(** A command line read as [file1 file2], [file1 file2 -o output], or
    [-h]; anything else is rejected. *)
Definition toy_parser (l : list string) : parsed :=
  match l with
  | [a] => if String.eqb a "-h" then Help else Rejected
  | [a; b] =>
      Parsed {| file1 := a; file2 := b; output := None; quiet := false |}
  | [a; b; f; o] =>
      if String.eqb f "-o"
      then Parsed {| file1 := a; file2 := b; output := Some o;
                     quiet := false |}
      else Rejected
  | _ => Rejected
  end.
(** * Lemmas and theorems *)

(** ** The URL normalizer *)

Lemma take_id_idem (s : string) : take_id (take_id s) = take_id s.
Proof.
  induction s as [|c s IH]; simpl; [reflexivity|].
  destruct (Ascii.eqb c "&") eqn:E; simpl; [reflexivity|].
  rewrite E, IH. reflexivity.
Qed.

Lemma split_nonempty (sep : ascii) (s : string) : split sep s <> [].
Proof.
  induction s as [|c s IH]; simpl; [discriminate|].
  destruct (Ascii.eqb c sep); [discriminate|].
  destruct (split sep s); discriminate.
Qed.

Lemma split_head (s : string) :
  hd EmptyString (split "&" s) = take_id s.
Proof.
  induction s as [|c s IH]; simpl; [reflexivity|].
  destruct (Ascii.eqb c "&"); [reflexivity|].
  destruct (split "&" s) eqn:E; simpl in *.
  - exfalso. exact (split_nonempty _ _ E).
  - rewrite IH. reflexivity.
Qed.

Lemma str_in_amp_take_id (s : string) : str_in "&" (take_id s) = false.
Proof.
  induction s as [|c s IH]; simpl; [reflexivity|].
  destruct (Ascii.eqb c "&") eqn:E; simpl; [reflexivity|].
  rewrite E. simpl. exact IH.
Qed.

Lemma match_here_some (s g : string) :
  match_here s = Some g -> str_truthy g = true /\ take_id g = g.
Proof.
  unfold match_here.
  destruct s as [|c [|c1 [|c2 rest]]]; try discriminate.
  destruct ((Ascii.eqb c "?" || Ascii.eqb c "&")
            && Ascii.eqb c1 "v" && Ascii.eqb c2 "="); [|discriminate].
  destruct (str_truthy (take_id rest)) eqn:T; [|discriminate].
  intros [= <-]. split; [exact T | apply take_id_idem].
Qed.

Lemma re_search_some (s g : string) :
  re_search s = Some g -> str_truthy g = true /\ take_id g = g.
Proof.
  induction s as [|c s IH]; cbn [re_search].
  - discriminate.
  - destruct (match_here (String c s)) eqn:M.
    + intros [= <-]. exact (match_here_some _ _ M).
    + exact IH.
Qed.

(** Searching the canonical form finds the identifier it was built from. *)
Lemma re_search_canonical (g : string) :
  str_truthy g = true -> take_id g = g ->
  re_search (watch_prefix ++ g) = Some g.
Proof.
  intros T I. unfold watch_prefix. cbn.
  rewrite I, T. reflexivity.
Qed.

Lemma match_here_take_id (s : string) :
  match_here s = None -> match_here (take_id s) = None.
Proof.
  destruct s as [|c [|c1 [|c2 rest]]]; simpl; try reflexivity.
  - destruct (Ascii.eqb c "&"); reflexivity.
  - destruct (Ascii.eqb c "&"); [reflexivity|].
    destruct (Ascii.eqb c1 "&"); reflexivity.
  - destruct (Ascii.eqb c "&") eqn:Ec; [reflexivity|].
    destruct (Ascii.eqb c1 "&") eqn:E1; [reflexivity|].
    destruct (Ascii.eqb c2 "&") eqn:E2; [reflexivity|].
    rewrite orb_false_r. cbn [match_here]. rewrite Ec, orb_false_r.
    destruct (Ascii.eqb c "?" && Ascii.eqb c1 "v" && Ascii.eqb c2 "=");
      [|reflexivity].
    rewrite take_id_idem.
    destruct (str_truthy (take_id rest)); [discriminate | reflexivity].
Qed.

Lemma re_search_take_id (s : string) :
  re_search s = None -> re_search (take_id s) = None.
Proof.
  induction s as [|c s IH]; [reflexivity|].
  cbn [re_search].
  destruct (match_here (String c s)) eqn:M; [discriminate|].
  intros R. specialize (IH R).
  apply match_here_take_id in M.
  cbn [take_id] in *. destruct (Ascii.eqb c "&"); [reflexivity|].
  cbn [re_search]. rewrite M. exact IH.
Qed.

Lemma str_truthy_app (pre : string) (c : ascii) (s : string) :
  str_truthy (pre ++ String c s) = true.
Proof. destruct pre; reflexivity. Qed.

Lemma take_id_no_amp (s : string) : str_in "&" s = false -> take_id s = s.
Proof.
  induction s as [|c s IH]; [reflexivity|].
  cbn [str_in startswith take_id]. rewrite andb_true_r.
  destruct (Ascii.eqb c "&"); [discriminate|].
  intros H. rewrite (IH H). reflexivity.
Qed.

Lemma take_id_app (g rest : string) :
  take_id g = g -> rest = EmptyString \/ startswith rest "&" = true ->
  take_id (g ++ rest) = g.
Proof.
  intros G R. revert G. induction g as [|c g IH]; intros G.
  - simpl. destruct R as [-> | R]; [reflexivity|].
    destruct rest as [|a rest]; [reflexivity|].
    cbn [startswith] in R. rewrite andb_true_r in R.
    cbn [take_id]. rewrite R. reflexivity.
  - cbn [append take_id] in *.
    destruct (Ascii.eqb c "&"); [discriminate|].
    injection G as G. rewrite (IH G). reflexivity.
Qed.

Lemma str_truthy_take_id (a : ascii) (s : string) :
  str_truthy (take_id (String a s)) = negb (Ascii.eqb a "&").
Proof. cbn [take_id]. destruct (Ascii.eqb a "&"); reflexivity. Qed.

(** Whether the pattern matches at the start of a string is decided by
    its first four characters. *)
Lemma match_here_extend (c sep : ascii) (pre tail : string) :
  sep = "?"%char \/ sep = "&"%char ->
  match_here (String c (pre ++ String sep "v=")) = None ->
  match_here (String c (pre ++ String sep ("v=" ++ tail))) = None.
Proof.
  intros S. destruct pre as [|c1 [|c2 [|c3 pre]]]; cbn [append match_here].
  - rewrite andb_false_r. reflexivity.
  - destruct S as [-> | ->]; cbn; rewrite !andb_false_r; reflexivity.
  - destruct ((Ascii.eqb c "?" || Ascii.eqb c "&")
              && Ascii.eqb c1 "v" && Ascii.eqb c2 "="); [|reflexivity].
    rewrite !str_truthy_take_id.
    destruct (negb (Ascii.eqb sep "&")); [discriminate | reflexivity].
  - destruct ((Ascii.eqb c "?" || Ascii.eqb c "&")
              && Ascii.eqb c1 "v" && Ascii.eqb c2 "="); [|reflexivity].
    rewrite !str_truthy_take_id.
    destruct (negb (Ascii.eqb c3 "&")); [discriminate | reflexivity].
Qed.

Lemma re_search_cons (c : ascii) (s : string) :
  re_search (String c s)
  = match match_here (String c s) with
    | Some g => Some g
    | None => re_search s
    end.
Proof. reflexivity. Qed.

Lemma append_cons (c : ascii) (a b : string) :
  (String c a ++ b)%string = String c (a ++ b).
Proof. reflexivity. Qed.

Lemma re_search_skip (sep : ascii) (pre tail : string) :
  sep = "?"%char \/ sep = "&"%char ->
  re_search (pre ++ String sep "v=") = None ->
  re_search (pre ++ String sep ("v=" ++ tail))
  = re_search (String sep ("v=" ++ tail)).
Proof.
  intros S. induction pre as [|c pre IH]; [reflexivity|].
  rewrite !(append_cons c pre), !(re_search_cons c).
  destruct (match_here (String c (pre ++ String sep "v="))) eqn:M;
    [discriminate|].
  intros R.
  rewrite (match_here_extend _ _ _ tail S M). exact (IH R).
Qed.

Lemma clean_canonical (g : string) :
  str_truthy g = true -> take_id g = g ->
  clean_youtube_url (watch_prefix ++ g) = (watch_prefix ++ g)%string.
Proof.
  intros T I. unfold clean_youtube_url, video_id_from_url.
  rewrite (re_search_canonical _ T I), T. reflexivity.
Qed.

Lemma clean_cut (u : string) :
  re_search u = None -> clean_youtube_url (take_id u) = take_id u.
Proof.
  intros R. unfold clean_youtube_url, video_id_from_url.
  destruct (str_truthy (take_id u)); [|reflexivity].
  cbn [negb]. rewrite (re_search_take_id _ R), str_in_amp_take_id.
  reflexivity.
Qed.

Lemma clean_fixed (u : string) :
  re_search u = None -> str_in "&" u = false -> clean_youtube_url u = u.
Proof.
  intros R A. unfold clean_youtube_url, video_id_from_url.
  rewrite R, A. destruct (negb (str_truthy u)); reflexivity.
Qed.

(** The four ways out of [clean_youtube_url]. *)
Lemma clean_cases (x : string) :
  (str_truthy x = false /\ clean_youtube_url x = x)
  \/ (exists g, re_search x = Some g /\ str_truthy g = true /\ take_id g = g
                /\ clean_youtube_url x = (watch_prefix ++ g)%string)
  \/ (re_search x = None /\ clean_youtube_url x = take_id x)
  \/ (re_search x = None /\ str_in "&" x = false /\ clean_youtube_url x = x).
Proof.
  unfold clean_youtube_url, video_id_from_url.
  destruct (str_truthy x) eqn:Tx; cbn [negb]; [|left; auto].
  right. destruct (re_search x) as [g|] eqn:R.
  - left. exists g. destruct (re_search_some _ _ R) as [Tg Ig].
    rewrite Tg. auto.
  - right. destruct (str_in "&" x) eqn:A.
    + left. rewrite split_head. auto.
    + right. auto.
Qed.

(** C3: the normalizer is idempotent: for every string [x],
    [clean_youtube_url (clean_youtube_url x) = clean_youtube_url x]. *)
Theorem clean_youtube_url_idempotent (x : string) :
  clean_youtube_url (clean_youtube_url x) = clean_youtube_url x.
Proof.
  destruct (clean_cases x)
    as [[_ E] | [(g & _ & T & I & E) | [[R E] | (R & A & E)]]];
    rewrite E.
  - exact E.
  - exact (clean_canonical g T I).
  - exact (clean_cut x R).
  - exact (clean_fixed x R A).
Qed.

(** C4: the code breaks the claim, and its own docstring.  The
    docstring of [clean_youtube_url] promises a URL "with only the video
    ID"; the pattern of [video_id_from_url] stops the identifier at [&]
    only, so a fragment that follows the value of [v] is taken into the
    identifier.  For [.../watch?v=abc#t=10&list=PL1] the result keeps
    [#t=10]; it is not [.../watch?v=abc]. *)
Lemma clean_youtube_url_keeps_fragment :
  clean_youtube_url "https://www.youtube.com/watch?v=abc#t=10&list=PL1"
  = "https://www.youtube.com/watch?v=abc#t=10"
  /\ clean_youtube_url "https://www.youtube.com/watch?v=abc#t=10&list=PL1"
     <> "https://www.youtube.com/watch?v=abc"
  /\ str_in "#"
       (clean_youtube_url "https://www.youtube.com/watch?v=abc#t=10&list=PL1")
     = true.
Proof. repeat split; [discriminate]. Qed.

Lemma clean_rebuilds (pre : string) (sep : ascii) (g rest : string) :
  sep = "?"%char \/ sep = "&"%char ->
  str_truthy g = true ->
  str_in "&" g = false ->
  rest = EmptyString \/ startswith rest "&" = true ->
  re_search (pre ++ String sep "v=") = None ->
  clean_youtube_url (pre ++ String sep ("v=" ++ g ++ rest))
  = (watch_prefix ++ g)%string.
Proof.
  intros S T A R N.
  unfold clean_youtube_url, video_id_from_url.
  rewrite str_truthy_app. cbn [negb].
  rewrite (re_search_skip _ _ (g ++ rest) S N).
  assert (M : match_here (String sep ("v=" ++ g ++ rest)) = Some g).
  { cbn [append match_here].
    rewrite (take_id_app g rest (take_id_no_amp _ A) R), T.
    destruct S as [-> | ->]; reflexivity. }
  cbn [re_search]. rewrite M, T. reflexivity.
Qed.

(** ** The HTML fallback scanner *)

(** Two passes of [filter] are one pass with the conjunction. *)
Lemma filter_both {X : Type} (l : list X) (keep also : X -> bool) :
  filter (fun x => keep x && also x) l = filter also (filter keep l).
Proof.
  induction l as [|x l IH]; [reflexivity|]. cbn [filter].
  destruct (keep x); cbn [andb filter]; [destruct (also x)|];
    rewrite IH; reflexivity.
Qed.

Lemma existsb_snoc {A : Type} (f : A -> bool) (l : list A) (a : A) :
  existsb f (l ++ [a]) = existsb f l || f a.
Proof. rewrite existsb_app. simpl. rewrite orb_false_r. reflexivity. Qed.

(** The loop with its set [seen_urls] keeps what [first_seen] keeps. *)
Lemma unique_loop_first_seen (videos : list video) :
  forall (seen : list string) (acc : list video),
  unique_loop videos seen acc
  = acc ++ filter (fun w => negb (existsb (String.eqb (url w)) seen))
             (first_seen videos).
Proof.
  induction videos as [|v rest IH]; intros seen acc; cbn [unique_loop first_seen].
  - simpl. rewrite app_nil_r. reflexivity.
  - cbn [filter]. destruct (existsb (String.eqb (url v)) seen) eqn:E; cbn [negb].
    + rewrite IH, <- filter_both. f_equal. apply filter_ext. intros w.
      destruct (String.eqb_spec (url w) (url v)) as [-> | _];
        [rewrite E|]; reflexivity.
    + rewrite IH, <- filter_both, <- app_assoc. cbn [app]. do 2 f_equal.
      apply filter_ext. intros w. rewrite existsb_snoc, negb_orb.
      apply andb_comm.
Qed.

(** Dropping records keeps the URLs distinct. *)
Lemma NoDup_urls_filter (keep : video -> bool) (videos : list video) :
  NoDup (map url videos) -> NoDup (map url (filter keep videos)).
Proof.
  induction videos as [|v rest IH]; cbn [map filter]; intros H; [constructor|].
  inversion H as [|? ? Hn Hl]; subst.
  destruct (keep v); cbn [map]; [|exact (IH Hl)].
  constructor; [|exact (IH Hl)].
  intros Hin. apply Hn. apply in_map_iff in Hin.
  destruct Hin as (w & Hw & Hf). apply filter_In in Hf.
  apply in_map_iff. exists w. tauto.
Qed.

Lemma first_seen_NoDup (videos : list video) :
  NoDup (map url (first_seen videos)).
Proof.
  induction videos as [|v rest IH]; cbn [first_seen map]; constructor.
  - intros Hin. apply in_map_iff in Hin. destruct Hin as (w & Hw & Hf).
    apply filter_In in Hf. destruct Hf as [_ Hf].
    rewrite Hw, String.eqb_refl in Hf. discriminate.
  - apply NoDup_urls_filter. exact IH.
Qed.

Lemma first_seen_urls (videos : list video) (u : string) :
  In u (map url (first_seen videos)) <-> In u (map url videos).
Proof.
  induction videos as [|v rest IH]; cbn [first_seen map]; [tauto|].
  split.
  - intros [H | H]; [left; exact H|]. right. apply IH.
    apply in_map_iff in H. destruct H as (w & Hw & Hf).
    apply filter_In in Hf. apply in_map_iff. exists w. tauto.
  - intros [H | H]; [left; exact H|].
    destruct (String.eqb_spec u (url v)) as [-> | Hne]; [left; reflexivity|].
    right. apply IH in H. apply in_map_iff in H. destruct H as (w & Hw & Hf).
    apply in_map_iff. exists w. split; [exact Hw|].
    apply filter_In. split; [exact Hf|].
    rewrite Hw. apply negb_true_iff, String.eqb_neq. exact Hne.
Qed.

Lemma extract_videos_from_html_first_seen (sp : soup) :
  extract_videos_from_html sp
  = first_seen (links_loop (find_all_watch_links sp) []).
Proof.
  unfold extract_videos_from_html. rewrite unique_loop_first_seen.
  cbn [app existsb negb]. induction (first_seen _) as [|a l IH];
    [reflexivity|]. cbn [filter]. rewrite IH. reflexivity.
Qed.

(** A link to [/watch?v=g], followed or not by other parameters, yields
    the record of the canonical URL of [g]. *)
Lemma link_video_watch (g rest : string) :
  str_truthy g = true ->
  str_in "&" g = false ->
  rest = EmptyString \/ startswith rest "&" = true ->
  link_video (anchor ("/watch?v=" ++ g ++ rest))
  = Some {| url := watch_prefix ++ g |}.
Proof.
  intros T A R.
  assert (E : link_video (anchor ("/watch?v=" ++ g ++ rest))
              = let u := clean_youtube_url
                           ("https://www.youtube.com/watch"
                            ++ String "?" ("v=" ++ g ++ rest)) in
                if str_truthy u && id_truthy (video_id_from_url u)
                then Some {| url := u |} else None) by reflexivity.
  rewrite E.
  rewrite (clean_rebuilds "https://www.youtube.com/watch" "?" g rest
             (or_introl eq_refl) T A R eq_refl).
  cbv zeta. unfold video_id_from_url.
  rewrite (re_search_canonical g T (take_id_no_amp g A)).
  cbn [id_truthy]. rewrite T. reflexivity.
Qed.

Lemma append_empty_r (s : string) : (s ++ EmptyString)%string = s.
Proof. induction s as [|c s IH]; simpl; [|rewrite IH]; reflexivity. Qed.

(** Two links to the same video, the second with a playlist parameter,
    leave one record. *)
Lemma two_links_one_record (g : string) :
  str_truthy g = true ->
  str_in "&" g = false ->
  extract_videos_from_html
    [anchor ("/watch?v=" ++ g); anchor ("/watch?v=" ++ g ++ "&list=PL1")]
  = [{| url := watch_prefix ++ g |}].
Proof.
  intros T A. unfold extract_videos_from_html.
  assert (F : find_all_watch_links
                [anchor ("/watch?v=" ++ g);
                 anchor ("/watch?v=" ++ g ++ "&list=PL1")]
              = [anchor ("/watch?v=" ++ g ++ EmptyString);
                 anchor ("/watch?v=" ++ g ++ "&list=PL1")]).
  { rewrite append_empty_r. reflexivity. }
  rewrite F. cbn [links_loop].
  rewrite (link_video_watch g EmptyString T A (or_introl eq_refl)).
  rewrite (link_video_watch g "&list=PL1" T A (or_intror eq_refl)).
  cbn [app unique_loop existsb negb url].
  rewrite String.eqb_refl. reflexivity.
Qed.

(** C6: the fallback scanner removes duplicates by URL and keeps the
    first-seen order: for every page no two records of the result share a
    URL, the result is the list of first occurrences of the records
    found, and a page without a script, with the two links [/watch?v=X]
    and [/watch?v=X&list=PL1], yields exactly one record. *)
Theorem extract_videos_from_html_dedup :
  (forall sp : soup,
      NoDup (map url (extract_videos_from_html sp))
      /\ extract_videos_from_html sp
         = first_seen (links_loop (find_all_watch_links sp) [])
      /\ (forall u, In u (map url (extract_videos_from_html sp))
                    <-> In u (map url (links_loop (find_all_watch_links sp) []))))
  /\ (forall (L : library) (files : filesystem) (path page X : string),
         str_truthy X = true ->
         str_in "&" X = false ->
         files path = Text page ->
         BeautifulSoup L page
         = [anchor ("/watch?v=" ++ X); anchor ("/watch?v=" ++ X ++ "&list=PL1")] ->
         parse_youtube_html L files path
         = ([MsgFallback], Ok [{| url := watch_prefix ++ X |}])).
Proof.
  split.
  - intros sp. rewrite extract_videos_from_html_first_seen.
    split; [apply first_seen_NoDup|]. split; [reflexivity|].
    intros u. apply first_seen_urls.
  - intros L files path page X T A F B. unfold parse_youtube_html.
    rewrite F, B. cbn [find_all filter anchor tag_name String.eqb Ascii.eqb
                       Bool.eqb scripts_loop app].
    fold (anchor ("/watch?v=" ++ X)).
    fold (anchor ("/watch?v=" ++ X ++ "&list=PL1")).
    rewrite (two_links_one_record X T A). reflexivity.
Qed.

Lemma extract_videos_from_html_dedup_witness :
  parse_youtube_html
    {| json_loads := fun _ => Ok None;
       json_dump := fun _ => inr "dump";
       BeautifulSoup := fun _ =>
         [anchor "/watch?v=X"; anchor "/watch?v=X&list=PL1"];
       py_str := fun _ => EmptyString;
       parse_args := fun _ => inl 2%Z |}
    (fun _ => Text "page") "page.html"
  = ([MsgFallback], Ok [{| url := "https://www.youtube.com/watch?v=X" |}]).
Proof.
  apply (proj2 extract_videos_from_html_dedup _ _ "page.html" "page" "X");
    reflexivity.
Defined.

(** ** The structured-data walker *)

Lemma eq_str_true (v : json) (s : string) :
  eq_str v s = true <-> v = JStr s.
Proof.
  destruct v; simpl; try (split; [discriminate | intros [=]]).
  rewrite String.eqb_eq. split; [intros ->; reflexivity | intros [= ->]; reflexivity].
Qed.

Lemma tabs_loop_cons (L : library) (tab : json) (rest : list json)
  (st : walk_state) (tab_renderer title : json) :
  dict_get tab "tabRenderer" (JDict []) = Ok tab_renderer ->
  dict_get tab_renderer "title" JNull = Ok title ->
  tabs_loop L (tab :: rest) st
  = if eq_str title "Videos" then videos_tab L tab_renderer st
    else tabs_loop L rest st.
Proof.
  intros H1 H2. cbn [tabs_loop]. rewrite H1. cbn [bind]. rewrite H2.
  reflexivity.
Qed.

(** Tabs with another title are passed over. *)
Lemma tabs_loop_skip (L : library) (pre rest : list json) (st : walk_state) :
  forallb other_tab pre = true ->
  tabs_loop L (pre ++ rest) st = tabs_loop L rest st.
Proof.
  induction pre as [|tab pre IH]; [reflexivity|].
  cbn [forallb app]. intros H. apply andb_true_iff in H. destruct H as [H1 H2].
  unfold other_tab, tab_title in H1.
  destruct (dict_get tab "tabRenderer" (JDict [])) as [tr|] eqn:E1;
    [|discriminate].
  destruct (dict_get tr "title" JNull) as [title|] eqn:E2; [|discriminate].
  rewrite (tabs_loop_cons L tab _ st tr title E1 E2).
  apply negb_true_iff in H1. rewrite H1. exact (IH H2).
Qed.

(** Without a tab titled ['Videos'] the loop appends nothing. *)
Lemma tabs_loop_none (L : library) (tabs : list json) (st : walk_state) :
  (forall tab, In tab tabs -> tab_title tab <> Some (JStr "Videos")) ->
  fst (tabs_loop L tabs st) = st.
Proof.
  induction tabs as [|tab rest IH]; intros H; [reflexivity|].
  pose proof (H tab (or_introl eq_refl)) as Ht. unfold tab_title in Ht.
  cbn [tabs_loop].
  destruct (dict_get tab "tabRenderer" (JDict [])) as [tr|] eqn:E1;
    cbn [bind]; [|reflexivity].
  destruct (dict_get tr "title" JNull) as [title|] eqn:E2;
    cbn [bind]; [|reflexivity].
  destruct (eq_str title "Videos") eqn:E.
  - apply eq_str_true in E. subst title. contradiction Ht. reflexivity.
  - apply IH. intros t Hin. apply H. right. exact Hin.
Qed.

(** C9: among the tab objects the walker selects the one whose title is
    exactly ['Videos']: tab objects with other titles before it are passed
    over and the body runs on that tab alone, whatever follows it; the
    comparison is exact and case-sensitive, so when no tab carries that
    very title (a tab titled ['videos'], say) no tab is selected and
    nothing is appended. *)
Theorem tabs_loop_selects_videos :
  (forall (L : library) (pre post : list json) (tab tab_renderer : json)
          (st : walk_state),
      forallb other_tab pre = true ->
      dict_get tab "tabRenderer" (JDict []) = Ok tab_renderer ->
      dict_get tab_renderer "title" JNull = Ok (JStr "Videos") ->
      tabs_loop L (pre ++ tab :: post) st = videos_tab L tab_renderer st)
  /\ (forall (L : library) (tabs : list json) (st : walk_state),
         (forall tab, In tab tabs -> tab_title tab <> Some (JStr "Videos")) ->
         fst (tabs_loop L tabs st) = st)
  /\ (forall title : string,
         eq_str (JStr title) "Videos" = true <-> title = "Videos")
  /\ (forall (L : library) (content : json) (st : walk_state),
         tabs_loop L [tab_of "videos" content] st = (st, None)).
Proof.
  split; [|split; [|split]].
  - intros L pre post tab tr st Hpre H1 H2.
    rewrite (tabs_loop_skip L pre _ st Hpre).
    rewrite (tabs_loop_cons L tab post st tr _ H1 H2). reflexivity.
  - exact tabs_loop_none.
  - intros title. rewrite eq_str_true. split; [intros [= ->] | intros ->];
      reflexivity.
  - intros L content st. reflexivity.
Qed.

Lemma tabs_loop_selects_videos_witness :
  tabs_loop toy_library
    ([tab_of "Home" (grid_of [item_of "h"])]
     ++ tab_of "Videos" (grid_of [item_of "a"; item_of "b"])
     :: [tab_of "videos" (grid_of [item_of "c"])]) ([], [])
  = videos_tab toy_library
      (JDict [("title", JStr "Videos");
              ("content", grid_of [item_of "a"; item_of "b"])]) ([], [])
  /\ fst (tabs_loop toy_library
            [tab_of "Home" (grid_of [item_of "h"]);
             tab_of "videos" (grid_of [item_of "c"])] ([], []))
     = ([], []).
Proof.
  split.
  - apply (proj1 tabs_loop_selects_videos); reflexivity.
  - apply (proj1 (proj2 tabs_loop_selects_videos)).
    intros tab [<- | [<- | []]]; discriminate.
Defined.

(** The walk of the two-tab example: the records of the tab titled
    ['Videos'], in the order of the document. *)
Example walk_selects_videos :
  extract_videos_from_json toy_library
    (JDict [("contents", JDict [("twoColumnBrowseResultsRenderer",
       JDict [("tabs", JList [
         tab_of "videos" (grid_of [item_of "c"]);
         tab_of "Videos" (grid_of [item_of "a"; item_of "b"; item_of "a"])])])])])
  = ([], Ok [ {| url := "https://www.youtube.com/watch?v=a" |};
              {| url := "https://www.youtube.com/watch?v=b" |};
              {| url := "https://www.youtube.com/watch?v=a" |} ]).
Proof. reflexivity. Qed.

Lemma walk_JList (L : library) (l : list json) :
  walk L (JList l) = (([], []), Some AttributeError).
Proof. reflexivity. Qed.

Lemma walk_empty_dict (L : library) : walk L (JDict []) = (([], []), None).
Proof. reflexivity. Qed.

Lemma extract_videos_from_json_ok (L : library) (data : json) :
  snd (extract_videos_from_json L data) = Ok (fst (fst (walk L data))).
Proof.
  unfold extract_videos_from_json.
  destruct (walk L data) as [[videos printed] [e|]]; [|reflexivity].
  destruct e; reflexivity.
Qed.

(** C5, the claim as stated fails: an exception raised after a record was
    appended is caught, but the result is not empty.  In [broken_items]
    the second item is the number [5]; the walk raises [AttributeError]
    there and the record of the first item is returned. *)
Lemma extract_videos_from_json_partial :
  snd (walk toy_library broken_items) = Some AttributeError
  /\ extract_videos_from_json toy_library broken_items
     = ([ErrExtractJson AttributeError],
        Ok [{| url := "https://www.youtube.com/watch?v=a" |}]).
Proof. split; reflexivity. Qed.

(** C5, amended: for every parsed value [extract_videos_from_json] returns
    a sequence and never raises: an exception raised during the walk is
    caught at the top level and reported on standard output, and the
    records appended before it are returned; for a list and for an empty mapping that is the empty
    sequence. *)
Theorem extract_videos_from_json_never_raises (L : library) :
  (forall data : json,
      exists videos : list video,
        snd (extract_videos_from_json L data) = Ok videos
        /\ videos = fst (fst (walk L data))
        /\ (forall e, snd (walk L data) = Some e ->
             fst (extract_videos_from_json L data)
             = snd (fst (walk L data)) ++ [ErrExtractJson e]))
  /\ (forall l : list json,
         extract_videos_from_json L (JList l)
         = ([ErrExtractJson AttributeError], Ok []))
  /\ extract_videos_from_json L (JDict []) = ([], Ok []).
Proof.
  split; [|split].
  - intros data. exists (fst (fst (walk L data))).
    split; [apply extract_videos_from_json_ok|]. split; [reflexivity|].
    intros e He. unfold extract_videos_from_json.
    destruct (walk L data) as [[videos printed] o]. cbn [snd fst] in *.
    subst o. destruct e; reflexivity.
  - intros l. reflexivity.
  - reflexivity.
Qed.

(** ** The embedded-data extractor and the script *)

Lemma scripts_loop_skip (L : library) (script : tag) (rest : list tag) :
  script_data L script = Ok None ->
  scripts_loop L (script :: rest) = scripts_loop L rest.
Proof.
  unfold script_data. cbn [scripts_loop].
  destruct (has_marker script) as [content|]; [|reflexivity].
  destruct (extract_blob content) as [blob|]; [|reflexivity].
  intros ->. reflexivity.
Qed.








(** C2, the claim as stated fails: the run on a missing page file ends
    with exit status [0]. *)
Lemma script_missing_file_exit_status :
  toy_files "missing.html" = Missing
  /\ snd (script toy_library ["youtube_parser.py"; "missing.html"] toy_world)
     = 0%Z.
Proof. split; reflexivity. Qed.

(** C2, amended: when the page file of a run does not exist the failure is
    reported at once (the line of the missing file follows the first line
    of the run), no output file is written, and the run ends normally,
    with exit status [0]. *)
Theorem script_missing_file
  (L : library) (argv : list string) (args : namespace) (w : world) :
  2 <= List.length argv ->
  parse_args L (tl argv) = inr args ->
  fs w (html_file args) = Missing ->
  script L argv w
  = ({| fs := fs w; writable := writable w;
        stdout := stdout w ++ [MsgParsing (html_file args);
                               ErrFileNotFound (html_file args);
                               MsgNoVideos];
        written := written w |}, 0%Z).
Proof.
  intros Hlen Hargs Hfile. unfold script.
  destruct (Nat.ltb_spec (List.length argv) 2) as [Hlt | _]; [lia|].
  rewrite Hargs. unfold main, parse_youtube_html. cbn [print fs].
  rewrite Hfile. unfold print. cbn [fs writable stdout written].
  rewrite <- !app_assoc. reflexivity.
Qed.

Lemma script_missing_file_witness :
  script toy_library ["youtube_parser.py"; "missing.html"] toy_world
  = ({| fs := toy_files; writable := fun _ => true;
        stdout := [MsgParsing "missing.html";
                   ErrFileNotFound "missing.html";
                   MsgNoVideos];
        written := [] |}, 0%Z).
Proof.
  apply (script_missing_file toy_library
           ["youtube_parser.py"; "missing.html"]
           {| html_file := "missing.html"; output_file := "videos.json" |}
           toy_world).
  - simpl. lia.
  - reflexivity.
  - reflexivity.
Defined.

(** ** The set differ *)

(** *** Sets of strings inside [pyset] *)

Lemma set_mem_str (u : string) (s : list string) :
  set_mem (JStr u) (map JStr s) = str_mem u s.
Proof.
  unfold set_mem, str_mem. induction s as [|t s IH]; [reflexivity|].
  cbn [map existsb]. rewrite IH. reflexivity.
Qed.

Lemma set_add_str (s : list string) (u : string) :
  set_add (map JStr s) (JStr u) = Ok (map JStr (str_add s u)).
Proof.
  unfold set_add, str_add. cbn [hashable]. rewrite set_mem_str.
  destruct (str_mem u s); [reflexivity|].
  rewrite map_app. reflexivity.
Qed.

Lemma filter_map_str (f : json -> bool) (g : string -> bool) (l : list string) :
  (forall u, f (JStr u) = g u) ->
  filter f (map JStr l) = map JStr (filter g l).
Proof.
  intros H. induction l as [|u l IH]; [reflexivity|].
  cbn [map filter]. rewrite H, IH. destruct (g u); reflexivity.
Qed.

Lemma set_difference_str (a b : list string) :
  set_difference (map JStr a) (map JStr b) = map JStr (str_difference a b).
Proof.
  apply filter_map_str. intros u. rewrite set_mem_str. reflexivity.
Qed.

Lemma set_intersection_str (a b : list string) :
  set_intersection (map JStr a) (map JStr b)
  = map JStr (str_intersection a b).
Proof.
  unfold set_intersection, str_intersection. rewrite !length_map.
  destruct (Nat.ltb (List.length a) (List.length b));
    apply filter_map_str; intros u; apply set_mem_str.
Qed.

Lemma py_insert_str (x : string) (l : list string) :
  py_insert (JStr x) (map JStr l) = Ok (map JStr (str_insert x l)).
Proof.
  induction l as [|y l IH]; [reflexivity|].
  cbn [map py_insert str_insert py_lt bind].
  destruct (String.ltb x y); [reflexivity|].
  rewrite IH. reflexivity.
Qed.

Lemma py_sorted_str (l : list string) :
  py_sorted (map JStr l) = Ok (map JStr (str_sort l)).
Proof.
  induction l as [|x l IH]; [reflexivity|].
  cbn [map py_sorted str_sort]. rewrite IH. cbn [bind].
  apply py_insert_str.
Qed.

(** *** The URL set of a collection *)

Lemma urls_loop_records (l : list json) :
  forall s : list string,
  forallb is_record l = true ->
  urls_loop l (map JStr s) = Ok (map JStr (fold_left str_add (records_urls l) s)).
Proof.
  induction l as [|v l IH]; intros s H; [reflexivity|].
  cbn [forallb] in H. apply andb_true_iff in H. destruct H as [Hv Hl].
  unfold is_record, record_url in Hv. cbn [urls_loop records_urls].
  unfold record_url.
  destruct v as [| | | | |?|d]; try discriminate.
  destruct (dict_lookup "url" d) as [[| | | |u| |]|]; try discriminate.
  rewrite set_add_str. cbn [bind fold_left]. exact (IH _ Hl).
Qed.

Lemma extract_urls_collection (data : json) :
  is_collection data = true ->
  extract_urls data = Ok (map JStr (url_set data)).
Proof.
  unfold is_collection, url_set, collection_urls, collection_records.
  destruct data as [| | | | |?|d]; try discriminate.
  unfold extract_urls. cbn [contains_str getitem_str bind].
  destruct (dict_lookup "videos" d) as [[| | | | |l|]|]; try discriminate.
  intros H. exact (urls_loop_records l [] H).
Qed.

Lemma str_mem_In (u : string) (s : list string) :
  str_mem u s = true <-> In u s.
Proof.
  unfold str_mem. rewrite existsb_exists. split.
  - intros (t & Ht & E). apply String.eqb_eq in E. subst. exact Ht.
  - intros H. exists u. split; [exact H | apply String.eqb_refl].
Qed.

Lemma str_mem_false (u : string) (s : list string) :
  str_mem u s = false <-> ~ In u s.
Proof.
  rewrite <- str_mem_In. destruct (str_mem u s); split.
  - discriminate.
  - intros H. exfalso. apply H. reflexivity.
  - intros _ H. discriminate H.
  - reflexivity.
Qed.

Lemma str_add_In (s : list string) (u v : string) :
  In v (str_add s u) <-> In v s \/ v = u.
Proof.
  unfold str_add. destruct (str_mem u s) eqn:E.
  - apply str_mem_In in E. split; [tauto|]. intros [H | ->]; assumption.
  - rewrite in_app_iff. simpl. intuition congruence.
Qed.

Lemma str_add_NoDup (s : list string) (u : string) :
  NoDup s -> NoDup (str_add s u).
Proof.
  intros H. unfold str_add. destruct (str_mem u s) eqn:E; [exact H|].
  apply str_mem_false in E.
  apply NoDup_app; [exact H | repeat constructor; intros [] |].
  intros x Hx [<- | []]. exact (E Hx).
Qed.

Lemma fold_str_add_In (l s : list string) (v : string) :
  In v (fold_left str_add l s) <-> In v s \/ In v l.
Proof.
  revert s. induction l as [|u l IH]; intros s; cbn [fold_left].
  - simpl. tauto.
  - rewrite IH, str_add_In. simpl. intuition congruence.
Qed.

Lemma fold_str_add_NoDup (l s : list string) :
  NoDup s -> NoDup (fold_left str_add l s).
Proof.
  revert s. induction l as [|u l IH]; intros s H; cbn [fold_left];
    [exact H|]. apply IH, str_add_NoDup, H.
Qed.

Lemma url_set_In (data : json) (u : string) :
  In u (url_set data) <-> In u (collection_urls data).
Proof. unfold url_set. rewrite fold_str_add_In. simpl. tauto. Qed.

Lemma url_set_NoDup (data : json) : NoDup (url_set data).
Proof. apply fold_str_add_NoDup. constructor. Qed.

(** *** Sorting strings *)

Lemma ltb_lt (s t : string) : String.ltb s t = true <-> String_as_OT.lt s t.
Proof.
  rewrite <- String_as_OT.cmp_lt. unfold String.ltb, String_as_OT.cmp.
  destruct (String.compare s t); split; intros H; try discriminate;
    reflexivity.
Qed.

Lemma str_lt_trans (s t u : string) : str_lt s t -> str_lt t u -> str_lt s u.
Proof.
  unfold str_lt. rewrite !ltb_lt. apply String_as_OT.lt_trans.
Qed.

Lemma str_lt_irrefl (s : string) : ~ str_lt s s.
Proof.
  unfold str_lt. rewrite ltb_lt. intros H.
  exact (String_as_OT.lt_not_eq _ _ H eq_refl).
Qed.

Lemma str_lt_total (s t : string) :
  String.ltb s t = false -> s <> t -> str_lt t s.
Proof.
  unfold str_lt, String.ltb. intros H Hne.
  rewrite String.compare_antisym.
  destruct (String.compare s t) eqn:E; [|discriminate|reflexivity].
  apply String.compare_eq_iff in E. contradiction.
Qed.

Lemma str_insert_In (x u : string) (l : list string) :
  In u (str_insert x l) <-> u = x \/ In u l.
Proof.
  induction l as [|y l IH]; cbn [str_insert].
  - simpl. intuition congruence.
  - destruct (String.ltb x y); simpl; [intuition congruence|].
    rewrite IH. intuition congruence.
Qed.

Lemma str_sort_In (u : string) (l : list string) :
  In u (str_sort l) <-> In u l.
Proof.
  induction l as [|x l IH]; cbn [str_sort]; [tauto|].
  rewrite str_insert_In, IH. simpl. intuition congruence.
Qed.

Lemma str_insert_length (x : string) (l : list string) :
  List.length (str_insert x l) = S (List.length l).
Proof.
  induction l as [|y l IH]; cbn [str_insert]; [reflexivity|].
  destruct (String.ltb x y); simpl; [|rewrite IH]; reflexivity.
Qed.

Lemma str_sort_length (l : list string) :
  List.length (str_sort l) = List.length l.
Proof.
  induction l as [|x l IH]; cbn [str_sort]; [reflexivity|].
  rewrite str_insert_length, IH. reflexivity.
Qed.

Lemma str_insert_sorted (x : string) (l : list string) :
  StronglySorted str_lt l -> ~ In x l ->
  StronglySorted str_lt (str_insert x l).
Proof.
  induction l as [|y l IH]; intros S N; cbn [str_insert].
  - repeat constructor.
  - inversion S as [|? ? Sl Fl]; subst.
    destruct (String.ltb x y) eqn:E.
    + constructor; [exact S|]. constructor; [exact E|].
      rewrite Forall_forall in *. intros z Hz.
      exact (str_lt_trans _ _ _ E (Fl z Hz)).
    + assert (Hyx : str_lt y x).
      { apply str_lt_total; [exact E|]. intros ->. apply N. left. reflexivity. }
      constructor.
      * apply IH; [exact Sl|]. intros H. apply N. right. exact H.
      * rewrite Forall_forall in *. intros z Hz.
        apply str_insert_In in Hz. destruct Hz as [-> | Hz]; auto.
Qed.

Lemma str_sort_sorted (l : list string) :
  NoDup l -> StronglySorted str_lt (str_sort l).
Proof.
  induction l as [|x l IH]; intros H; cbn [str_sort]; [constructor|].
  inversion H as [|? ? Hn Hl]; subst.
  apply str_insert_sorted; [exact (IH Hl)|].
  rewrite str_sort_In. exact Hn.
Qed.

(** A set has one sorted enumeration. *)
Lemma sorted_unique (l1 : list string) :
  forall l2 : list string,
  StronglySorted str_lt l1 -> StronglySorted str_lt l2 ->
  (forall u, In u l1 <-> In u l2) -> l1 = l2.
Proof.
  induction l1 as [|a l1 IH]; intros [|b l2] S1 S2 H.
  - reflexivity.
  - exfalso. apply (proj2 (H b)). left. reflexivity.
  - exfalso. apply (proj1 (H a)). left. reflexivity.
  - inversion S1 as [|? ? S1' F1]; inversion S2 as [|? ? S2' F2]; subst.
    rewrite Forall_forall in F1, F2.
    assert (a = b) as ->.
    { destruct (proj1 (H a) (or_introl eq_refl)) as [E | Ha]; [auto|].
      destruct (proj2 (H b) (or_introl eq_refl)) as [E | Hb]; [auto|].
      exfalso. apply (str_lt_irrefl a).
      exact (str_lt_trans _ _ _ (F1 b Hb) (F2 a Ha)). }
    f_equal. apply IH; [exact S1' | exact S2' |].
    intros u. split; intros Hu.
    + destruct (proj1 (H u) (or_intror Hu)) as [<- | Hu']; [|exact Hu'].
      exfalso. exact (str_lt_irrefl _ (F1 _ Hu)).
    + destruct (proj2 (H u) (or_intror Hu)) as [<- | Hu']; [|exact Hu'].
      exfalso. exact (str_lt_irrefl _ (F2 _ Hu)).
Qed.

Lemma str_difference_In (a b : list string) (u : string) :
  In u (str_difference a b) <-> In u a /\ ~ In u b.
Proof.
  unfold str_difference. rewrite filter_In, negb_true_iff, str_mem_false.
  reflexivity.
Qed.

Lemma str_intersection_In (a b : list string) (u : string) :
  In u (str_intersection a b) <-> In u a /\ In u b.
Proof.
  unfold str_intersection.
  destruct (Nat.ltb (List.length a) (List.length b));
    rewrite filter_In, str_mem_In; tauto.
Qed.

Lemma str_difference_NoDup (a b : list string) :
  NoDup a -> NoDup (str_difference a b).
Proof. apply NoDup_filter. Qed.

Lemma str_intersection_NoDup (a b : list string) :
  NoDup a -> NoDup b -> NoDup (str_intersection a b).
Proof.
  intros Ha Hb. unfold str_intersection.
  destruct (Nat.ltb (List.length a) (List.length b)); apply NoDup_filter;
    assumption.
Qed.

(** *** The report on two collections *)

Lemma url_differences_collections (data1 data2 : json) :
  is_collection data1 = true -> is_collection data2 = true ->
  url_differences data1 data2
  = Ok (Some
      {| only_in_file1 :=
           map JStr (str_sort (str_difference (url_set data1) (url_set data2)));
         only_in_file2 :=
           map JStr (str_sort (str_difference (url_set data2) (url_set data1)));
         common_urls :=
           map JStr (str_sort (str_intersection (url_set data1) (url_set data2)));
         file1_count := List.length (url_set data1);
         file2_count := List.length (url_set data2);
         common_count :=
           List.length (str_intersection (url_set data1) (url_set data2)) |}).
Proof.
  intros H1 H2.
  pose proof (extract_urls_collection _ H1) as E1.
  pose proof (extract_urls_collection _ H2) as E2.
  destruct data1 as [| | | | |?|d1]; try discriminate H1.
  destruct data2 as [| | | | |?|d2]; try discriminate H2.
  unfold url_differences. rewrite E1, E2. cbn [bind].
  rewrite !set_difference_str, set_intersection_str, !py_sorted_str.
  cbn [bind]. rewrite !length_map. reflexivity.
Qed.

Lemma load_json_file_text (L : library) (files : filesystem)
  (path text : string) (data : json) :
  files path = Text text -> json_loads L text = Ok (Some data) ->
  load_json_file L files path = ([], Ok data).
Proof. intros F J. unfold load_json_file. rewrite F, J. reflexivity. Qed.

Lemma find_url_differences_collections (L : library) (files : filesystem)
  (file1 file2 text1 text2 : string) (data1 data2 : json) :
  files file1 = Text text1 -> json_loads L text1 = Ok (Some data1) ->
  files file2 = Text text2 -> json_loads L text2 = Ok (Some data2) ->
  find_url_differences L files file1 file2
  = ([], url_differences data1 data2).
Proof.
  intros F1 J1 F2 J2. unfold find_url_differences.
  rewrite (load_json_file_text L files file1 text1 data1 F1 J1).
  rewrite (load_json_file_text L files file2 text2 data2 F2 J2).
  reflexivity.
Qed.

(** C1: for two collections with URL sets [A] and [B] the report holds
    [A - B] in [only_in_file1], [B - A] in [only_in_file2] and the
    intersection in [common_urls], each as a strictly ascending sequence
    of strings, and the three counts are the numbers of distinct URLs of
    the first file, of the second file and of the intersection. *)
Theorem find_url_differences_report (L : library) (files : filesystem)
  (file1 file2 text1 text2 : string) (data1 data2 : json) :
  files file1 = Text text1 -> json_loads L text1 = Ok (Some data1) ->
  is_collection data1 = true ->
  files file2 = Text text2 -> json_loads L text2 = Ok (Some data2) ->
  is_collection data2 = true ->
  exists (r : report) (first second common : list string),
    find_url_differences L files file1 file2 = ([], Ok (Some r))
    /\ only_in_file1 r = map JStr first
    /\ only_in_file2 r = map JStr second
    /\ common_urls r = map JStr common
    /\ StronglySorted str_lt first
    /\ StronglySorted str_lt second
    /\ StronglySorted str_lt common
    /\ (forall u, In u first <->
                  In u (collection_urls data1) /\ ~ In u (collection_urls data2))
    /\ (forall u, In u second <->
                  In u (collection_urls data2) /\ ~ In u (collection_urls data1))
    /\ (forall u, In u common <->
                  In u (collection_urls data1) /\ In u (collection_urls data2))
    /\ (exists set1 set2 : list string,
           NoDup set1 /\ NoDup set2
           /\ (forall u, In u set1 <-> In u (collection_urls data1))
           /\ (forall u, In u set2 <-> In u (collection_urls data2))
           /\ file1_count r = List.length set1
           /\ file2_count r = List.length set2)
    /\ common_count r = List.length common.
Proof.
  intros F1 J1 C1 F2 J2 C2.
  rewrite (find_url_differences_collections L files _ _ _ _ _ _ F1 J1 F2 J2).
  rewrite (url_differences_collections _ _ C1 C2).
  pose proof (url_set_NoDup data1) as N1.
  pose proof (url_set_NoDup data2) as N2.
  eexists. exists (str_sort (str_difference (url_set data1) (url_set data2))).
  exists (str_sort (str_difference (url_set data2) (url_set data1))).
  exists (str_sort (str_intersection (url_set data1) (url_set data2))).
  split; [reflexivity|].
  cbn [only_in_file1 only_in_file2 common_urls
       file1_count file2_count common_count].
  do 3 (split; [reflexivity|]).
  split; [apply str_sort_sorted, str_difference_NoDup, N1|].
  split; [apply str_sort_sorted, str_difference_NoDup, N2|].
  split; [apply str_sort_sorted, str_intersection_NoDup; assumption|].
  split; [intros u; rewrite str_sort_In, str_difference_In, !url_set_In;
          reflexivity|].
  split; [intros u; rewrite str_sort_In, str_difference_In, !url_set_In;
          reflexivity|].
  split; [intros u; rewrite str_sort_In, str_intersection_In, !url_set_In;
          reflexivity|].
  split; [|symmetry; apply str_sort_length].
  exists (url_set data1), (url_set data2).
  split; [exact N1|]. split; [exact N2|].
  split; [intros u; apply url_set_In|].
  split; [intros u; apply url_set_In|].
  split; reflexivity.
Qed.

Lemma find_url_differences_report_witness :
  exists (r : report) (first second common : list string),
    find_url_differences toy_library toy_files "first.json" "second.json"
    = ([], Ok (Some r))
    /\ only_in_file1 r = map JStr first
    /\ only_in_file2 r = map JStr second
    /\ common_urls r = map JStr common
    /\ StronglySorted str_lt first
    /\ StronglySorted str_lt second
    /\ StronglySorted str_lt common
    /\ (forall u, In u first <-> In u ["B"; "A"; "B"] /\ ~ In u ["B"; "C"])
    /\ (forall u, In u second <-> In u ["B"; "C"] /\ ~ In u ["B"; "A"; "B"])
    /\ (forall u, In u common <-> In u ["B"; "A"; "B"] /\ In u ["B"; "C"])
    /\ (exists set1 set2 : list string,
           NoDup set1 /\ NoDup set2
           /\ (forall u, In u set1 <-> In u ["B"; "A"; "B"])
           /\ (forall u, In u set2 <-> In u ["B"; "C"])
           /\ file1_count r = List.length set1
           /\ file2_count r = List.length set2)
    /\ common_count r = List.length common.
Proof.
  apply (find_url_differences_report toy_library toy_files
           "first.json" "second.json" "doc-AB" "doc-BC"
           (collection_of ["B"; "A"; "B"]) (collection_of ["B"; "C"]));
    reflexivity.
Defined.

(** The report of the two example files: [B] counts once in the first. *)
Example find_url_differences_example :
  find_url_differences toy_library toy_files "first.json" "second.json"
  = ([], Ok (Some {| only_in_file1 := [JStr "A"];
                     only_in_file2 := [JStr "C"];
                     common_urls := [JStr "B"];
                     file1_count := 2;
                     file2_count := 2;
                     common_count := 1 |})).
Proof. reflexivity. Qed.

(** C7: the report is symmetric under the exchange of the two files:
    [common_urls] is the same both ways, and [only_in_file1] of one order
    is [only_in_file2] of the other; the counts are exchanged
    likewise. *)
Theorem find_url_differences_symmetric (L : library) (files : filesystem)
  (file1 file2 text1 text2 : string) (data1 data2 : json) :
  files file1 = Text text1 -> json_loads L text1 = Ok (Some data1) ->
  is_collection data1 = true ->
  files file2 = Text text2 -> json_loads L text2 = Ok (Some data2) ->
  is_collection data2 = true ->
  exists r12 r21 : report,
    find_url_differences L files file1 file2 = ([], Ok (Some r12))
    /\ find_url_differences L files file2 file1 = ([], Ok (Some r21))
    /\ common_urls r12 = common_urls r21
    /\ only_in_file1 r12 = only_in_file2 r21
    /\ only_in_file2 r12 = only_in_file1 r21
    /\ file1_count r12 = file2_count r21
    /\ file2_count r12 = file1_count r21
    /\ common_count r12 = common_count r21.
Proof.
  intros F1 J1 C1 F2 J2 C2.
  rewrite (find_url_differences_collections L files _ _ _ _ _ _ F1 J1 F2 J2).
  rewrite (find_url_differences_collections L files _ _ _ _ _ _ F2 J2 F1 J1).
  rewrite (url_differences_collections _ _ C1 C2).
  rewrite (url_differences_collections _ _ C2 C1).
  pose proof (url_set_NoDup data1) as N1.
  pose proof (url_set_NoDup data2) as N2.
  assert (E : str_sort (str_intersection (url_set data1) (url_set data2))
              = str_sort (str_intersection (url_set data2) (url_set data1))).
  { apply sorted_unique.
    - apply str_sort_sorted, str_intersection_NoDup; assumption.
    - apply str_sort_sorted, str_intersection_NoDup; assumption.
    - intros u. rewrite !str_sort_In, !str_intersection_In. tauto. }
  do 2 eexists. do 2 (split; [reflexivity|]).
  cbn [only_in_file1 only_in_file2 common_urls
       file1_count file2_count common_count].
  split; [rewrite E; reflexivity|]. do 4 (split; [reflexivity|]).
  rewrite <- (str_sort_length (str_intersection (url_set data1) _)), E.
  apply str_sort_length.
Qed.

Lemma find_url_differences_symmetric_witness :
  exists r12 r21 : report,
    find_url_differences toy_library toy_files "first.json" "second.json"
    = ([], Ok (Some r12))
    /\ find_url_differences toy_library toy_files "second.json" "first.json"
       = ([], Ok (Some r21))
    /\ common_urls r12 = common_urls r21
    /\ only_in_file1 r12 = only_in_file2 r21
    /\ only_in_file2 r12 = only_in_file1 r21
    /\ file1_count r12 = file2_count r21
    /\ file2_count r12 = file1_count r21
    /\ common_count r12 = common_count r21.
Proof.
  apply (find_url_differences_symmetric toy_library toy_files
           "first.json" "second.json" "doc-AB" "doc-BC"
           (collection_of ["B"; "A"; "B"]) (collection_of ["B"; "C"]));
    reflexivity.
Defined.

Lemma urls_loop_skip (v : json) (rest : list json) (urls : pyset) :
  entry_url v = None -> urls_loop (v :: rest) urls = urls_loop rest urls.
Proof.
  unfold entry_url. cbn [urls_loop].
  destruct v as [| | | | | |d]; try reflexivity.
  intros ->. reflexivity.
Qed.

Lemma urls_loop_no_url (l : list json) (urls : pyset) :
  (forall v, In v l -> entry_url v = None) -> urls_loop l urls = Ok urls.
Proof.
  induction l as [|v l IH]; intros H; [reflexivity|].
  rewrite (urls_loop_skip v l urls (H v (or_introl eq_refl))).
  apply IH. intros w Hw. apply H. right. exact Hw.
Qed.

Lemma urls_loop_hashable (l : list json) :
  forall urls : pyset,
  hashable_urls l = true -> exists urls', urls_loop l urls = Ok urls'.
Proof.
  induction l as [|v l IH]; intros urls H; [eexists; reflexivity|].
  unfold hashable_urls in H. cbn [forallb] in H.
  apply andb_true_iff in H. destruct H as [Hv Hl].
  destruct (entry_url v) as [u|] eqn:E.
  - unfold entry_url in E. destruct v as [| | | | | |d]; try discriminate.
    cbn [urls_loop]. rewrite E. unfold set_add. rewrite Hv. cbn [bind].
    apply IH. exact Hl.
  - rewrite (urls_loop_skip v l urls E). apply IH. exact Hl.
Qed.

(** C10, the claim as stated fails: parsed inputs on which [extract_urls]
    raises [TypeError]: a number at the top level, a string at the top
    level that contains [videos], and a record whose URL is a list; the
    differ then ends with the exception, not with a report. *)
Lemma extract_urls_raises :
  extract_urls (JInt 5) = Raise TypeError
  /\ extract_urls (JStr "my videos") = Raise TypeError
  /\ extract_urls (JDict [("videos", JList [JDict [("url", JList [])]])])
     = Raise TypeError
  /\ url_differences (JInt 5) (collection_of ["A"]) = Raise TypeError.
Proof. repeat split. Qed.

(** C10, amended: when the top-level value is a mapping, [extract_urls]
    returns the empty set if there is no key ['videos'] or its value is
    not a list; entries of the list that are not mappings or have no key
    ['url'] are passed over; if every URL met is hashable (not a list, not
    a mapping) the function returns a set; and two inputs with empty URL
    sets give a report with empty sequences and counts [0]. *)
Theorem extract_urls_tolerant (d : list (string * json)) :
  ((forall l, dict_lookup "videos" d <> Some (JList l)) ->
   extract_urls (JDict d) = Ok [])
  /\ (forall l, dict_lookup "videos" d = Some (JList l) ->
                hashable_urls l = true ->
                exists urls, extract_urls (JDict d) = Ok urls)
  /\ (forall l, dict_lookup "videos" d = Some (JList l) ->
                (forall v, In v l -> entry_url v = None) ->
                extract_urls (JDict d) = Ok [])
  /\ (forall v rest urls,
         entry_url v = None ->
         urls_loop (v :: rest) urls = urls_loop rest urls)
  /\ (forall data2,
         extract_urls (JDict d) = Ok [] ->
         extract_urls data2 = Ok [] ->
         url_differences (JDict d) data2
         = Ok (Some {| only_in_file1 := []; only_in_file2 := [];
                       common_urls := [];
                       file1_count := 0; file2_count := 0;
                       common_count := 0 |})).
Proof.
  split; [|split; [|split; [|split]]].
  - intros H. unfold extract_urls. cbn [contains_str getitem_str bind].
    destruct (dict_lookup "videos" d) as [v|] eqn:E; [|reflexivity].
    cbn [bind]. destruct v; try reflexivity. contradiction (H l). reflexivity.
  - intros l E H. unfold extract_urls. cbn [contains_str getitem_str bind].
    rewrite E. cbn [bind]. exact (urls_loop_hashable l [] H).
  - intros l E H. unfold extract_urls. cbn [contains_str getitem_str bind].
    rewrite E. cbn [bind]. exact (urls_loop_no_url l [] H).
  - exact urls_loop_skip.
  - intros data2 E1 E2. unfold url_differences.
    destruct data2; try discriminate E2; rewrite E1, E2; reflexivity.
Qed.

Lemma extract_urls_tolerant_witness :
  extract_urls (JDict [("items", JList [])]) = Ok []
  /\ (exists urls,
         extract_urls
           (JDict [("videos",
                    JList [JInt 1; JDict [("title", JStr "t")];
                           record_of "A"; JDict [("url", JInt 7)]])])
         = Ok urls)
  /\ extract_urls
       (JDict [("videos", JList [JInt 1; JDict [("title", JStr "t")]])])
     = Ok []
  /\ url_differences (JDict [("items", JList [])]) (JList [])
     = Ok (Some {| only_in_file1 := []; only_in_file2 := [];
                   common_urls := [];
                   file1_count := 0; file2_count := 0;
                   common_count := 0 |}).
Proof.
  split; [|split; [|split]].
  - apply (proj1 (extract_urls_tolerant [("items", JList [])])).
    intros l. discriminate.
  - apply (proj1 (proj2 (extract_urls_tolerant
             [("videos",
               JList [JInt 1; JDict [("title", JStr "t")];
                      record_of "A"; JDict [("url", JInt 7)]])]))
             [JInt 1; JDict [("title", JStr "t")];
              record_of "A"; JDict [("url", JInt 7)]]);
      reflexivity.
  - apply (proj1 (proj2 (proj2 (extract_urls_tolerant
             [("videos", JList [JInt 1; JDict [("title", JStr "t")]])])))
             [JInt 1; JDict [("title", JStr "t")]]); [reflexivity|].
    intros v [<- | [<- | []]]; reflexivity.
  - apply (proj2 (proj2 (proj2 (proj2
             (extract_urls_tolerant [("items", JList [])])))));
      reflexivity.
Defined.

(** * Further properties *)

(** ** [video_id_from_url] and [clean_youtube_url] *)

Lemma take_id_split (s : string) :
  exists rest, s = (take_id s ++ rest)%string
               /\ (rest = EmptyString \/ startswith rest "&" = true).
Proof.
  induction s as [|c s (rest & E & R)].
  - exists EmptyString. split; [reflexivity | left; reflexivity].
  - cbn [take_id]. destruct (Ascii.eqb c "&") eqn:A.
    + exists (String c s). split; [reflexivity|]. right.
      cbn [startswith]. rewrite A. reflexivity.
    + exists rest. split; [|exact R]. cbn [append]. rewrite <- E. reflexivity.
Qed.

Lemma match_here_shape (s g : string) :
  match_here s = Some g ->
  exists sep rest,
    s = String sep ("v=" ++ g ++ rest)
    /\ (sep = "?"%char \/ sep = "&"%char)
    /\ (rest = EmptyString \/ startswith rest "&" = true).
Proof.
  unfold match_here.
  destruct s as [|c [|c1 [|c2 r]]]; try discriminate.
  destruct (Ascii.eqb c "?" || Ascii.eqb c "&") eqn:Ec; [|discriminate].
  destruct (Ascii.eqb_spec c1 "v") as [-> |]; [|discriminate].
  destruct (Ascii.eqb_spec c2 "=") as [-> |]; [|discriminate].
  cbn [andb]. destruct (str_truthy (take_id r)); [|discriminate].
  intros [= <-]. destruct (take_id_split r) as (rest & E & R).
  exists c, rest. split; [|split; [|exact R]].
  - cbn [append]. rewrite <- E. reflexivity.
  - apply orb_true_iff in Ec.
    destruct Ec as [Ec | Ec]; apply Ascii.eqb_eq in Ec; auto.
Qed.

(** X1: an identifier found by [video_id_from_url] is not empty, holds no
    [&], and stands in the URL right after [?v=] or [&v=], up to the next
    [&] or the end of the string. *)
Theorem video_id_from_url_shape (u g : string) :
  video_id_from_url u = Some g ->
  str_truthy g = true
  /\ str_in "&" g = false
  /\ exists pre sep rest,
       u = (pre ++ String sep ("v=" ++ g ++ rest))%string
       /\ (sep = "?"%char \/ sep = "&"%char)
       /\ (rest = EmptyString \/ startswith rest "&" = true).
Proof.
  unfold video_id_from_url. intros R.
  destruct (re_search_some _ _ R) as [T I].
  split; [exact T|]. split; [rewrite <- I; apply str_in_amp_take_id|].
  clear T I. induction u as [|c u IH]; [discriminate|].
  rewrite re_search_cons in R.
  destruct (match_here (String c u)) as [g'|] eqn:M.
  - injection R as ->.
    destruct (match_here_shape _ _ M) as (sep & rest & E & S & Rs).
    exists EmptyString, sep, rest. auto.
  - destruct (IH R) as (pre & sep & rest & E & S & Rs).
    exists (String c pre), sep, rest. rewrite E. auto.
Qed.

Lemma video_id_from_url_shape_witness :
  str_truthy "abc" = true
  /\ str_in "&" "abc" = false
  /\ exists pre sep rest,
       "https://youtu.be/x?t=1&v=abc&z=2"
       = (pre ++ String sep ("v=" ++ "abc" ++ rest))%string
       /\ (sep = "?"%char \/ sep = "&"%char)
       /\ (rest = EmptyString \/ startswith rest "&" = true).
Proof.
  apply (video_id_from_url_shape "https://youtu.be/x?t=1&v=abc&z=2" "abc").
  reflexivity.
Defined.

Lemma str_in_amp_canonical (g : string) :
  str_in "&" (watch_prefix ++ g) = str_in "&" g.
Proof. reflexivity. Qed.

(** X2: the result of [clean_youtube_url] never holds an [&]. *)
Theorem clean_youtube_url_no_amp (x : string) :
  str_in "&" (clean_youtube_url x) = false.
Proof.
  destruct (clean_cases x)
    as [[T E] | [(g & _ & _ & I & E) | [[_ E] | (_ & A & E)]]];
    rewrite E.
  - destruct x; [reflexivity | discriminate].
  - rewrite str_in_amp_canonical, <- I. apply str_in_amp_take_id.
  - apply str_in_amp_take_id.
  - exact A.
Qed.

Lemma re_search_clean (x : string) :
  re_search (clean_youtube_url x) = re_search x.
Proof.
  destruct (clean_cases x)
    as [[_ E] | [(g & R & T & I & E) | [[R E] | (_ & _ & E)]]];
    rewrite E.
  - reflexivity.
  - rewrite R. exact (re_search_canonical g T I).
  - rewrite R. exact (re_search_take_id x R).
  - reflexivity.
Qed.

(** X3: normalizing keeps the identifier: [video_id_from_url] finds in the
    normalized URL what it finds in the raw one, or nothing in both. *)
Theorem video_id_from_url_clean (x : string) :
  video_id_from_url (clean_youtube_url x) = video_id_from_url x.
Proof. exact (re_search_clean x). Qed.

Lemma clean_of_id (x g : string) :
  re_search x = Some g ->
  clean_youtube_url x = (watch_prefix ++ g)%string
  /\ str_truthy g = true /\ str_in "&" g = false.
Proof.
  intros R. destruct (re_search_some _ _ R) as [T I].
  assert (A : str_in "&" g = false)
    by (rewrite <- I; apply str_in_amp_take_id).
  destruct (clean_cases x)
    as [[Tx E] | [(g' & R' & _ & _ & E) | [[R' _] | (R' & _)]]].
  - destruct x; [discriminate R | discriminate Tx].
  - rewrite R in R'. injection R' as <-. auto.
  - rewrite R in R'. discriminate.
  - rewrite R in R'. discriminate.
Qed.

(** ** [extract_videos_from_html] *)

Lemma link_video_some (link : tag) (v : video) :
  link_video link = Some v ->
  exists g, url v = (watch_prefix ++ g)%string
            /\ str_truthy g = true /\ str_in "&" g = false.
Proof.
  unfold link_video.
  set (x := if startswith (tag_get link "href" EmptyString) "/"
            then ("https://www.youtube.com"
                  ++ tag_get link "href" EmptyString)%string
            else tag_get link "href" EmptyString).
  unfold video_id_from_url. rewrite re_search_clean.
  destruct (re_search x) as [g|] eqn:R.
  - destruct (clean_of_id x g R) as (E & T & A).
    destruct (str_truthy (clean_youtube_url x) && id_truthy (Some g));
      [|discriminate].
    intros [= <-]. exists g. cbn [url]. auto.
  - rewrite andb_false_r. discriminate.
Qed.

Lemma links_loop_In (links : list tag) :
  forall (acc : list video) (v : video),
  In v (links_loop links acc) ->
  In v acc \/ exists link, In link links /\ link_video link = Some v.
Proof.
  induction links as [|link rest IH]; intros acc v H; cbn [links_loop] in H.
  - left. exact H.
  - destruct (link_video link) as [w|] eqn:E.
    + destruct (IH _ _ H) as [Hin | (l & Hl & El)].
      * apply in_app_iff in Hin. destruct Hin as [Hin | [<- | []]].
        -- left. exact Hin.
        -- right. exists link. split; [left; reflexivity | exact E].
      * right. exists l. split; [right; exact Hl | exact El].
    + destruct (IH _ _ H) as [Hin | (l & Hl & El)].
      * left. exact Hin.
      * right. exists l. split; [right; exact Hl | exact El].
Qed.

Lemma first_seen_incl (videos : list video) (v : video) :
  In v (first_seen videos) -> In v videos.
Proof.
  induction videos as [|w rest IH]; cbn [first_seen]; [tauto|].
  intros [H | H]; [left; exact H|]. right. apply IH.
  apply filter_In in H. tauto.
Qed.

(** X4: every record the fallback scanner returns comes from an [a]
    element of the page and carries a canonical URL: the fixed prefix
    followed by an identifier that is not empty and holds no [&]. *)
Theorem extract_videos_from_html_canonical (sp : soup) (v : video) :
  In v (extract_videos_from_html sp) ->
  exists link g,
    In link sp
    /\ tag_name link = "a"
    /\ link_video link = Some v
    /\ url v = (watch_prefix ++ g)%string
    /\ str_truthy g = true
    /\ str_in "&" g = false.
Proof.
  rewrite extract_videos_from_html_first_seen. intros H.
  apply first_seen_incl, links_loop_In in H.
  destruct H as [[] | (link & Hl & E)].
  destruct (link_video_some link v E) as (g & U & T & A).
  unfold find_all_watch_links in Hl. apply filter_In in Hl.
  destruct Hl as [Hin Hf]. apply andb_true_iff in Hf.
  destruct Hf as [Hn _]. apply String.eqb_eq in Hn.
  exists link, g. auto 6.
Qed.

Lemma extract_videos_from_html_canonical_witness :
  exists link g,
    In link [script_tag "x"; anchor "/watch?v=X&list=PL1"]
    /\ tag_name link = "a"
    /\ link_video link = Some {| url := "https://www.youtube.com/watch?v=X" |}
    /\ "https://www.youtube.com/watch?v=X" = (watch_prefix ++ g)%string
    /\ str_truthy g = true
    /\ str_in "&" g = false.
Proof.
  apply (extract_videos_from_html_canonical
           [script_tag "x"; anchor "/watch?v=X&list=PL1"]
           {| url := "https://www.youtube.com/watch?v=X" |}).
  left. reflexivity.
Defined.

(** ** [extract_video_info] and [extract_videos_from_json] *)

Lemma extract_video_info_prefix (L : library) (vr : json) (v : video) :
  snd (extract_video_info L vr) = Some v -> has_prefix v.
Proof.
  unfold extract_video_info, has_prefix.
  destruct (dict_get vr "videoId" (JStr EmptyString)) as [vid|];
    [|discriminate].
  destruct (truthy vid); [|discriminate].
  cbn. intros [= <-]. reflexivity.
Qed.

Lemma items_loop_prefix (L : library) (items : list json) :
  forall st : walk_state,
  Forall has_prefix (fst st) ->
  Forall has_prefix (fst (fst (items_loop L items st))).
Proof.
  induction items as [|item rest IH]; intros st H; [exact H|].
  cbn [items_loop].
  destruct (dict_get item "gridVideoRenderer" (JDict [])) as [vr|];
    [|exact H].
  destruct (truthy vr); [|exact (IH st H)].
  pose proof (extract_video_info_prefix L vr) as P.
  destruct (extract_video_info L vr) as [printed [v|]]; cbn [snd] in P.
  - apply IH. cbn [fst]. apply Forall_app. split; [exact H|].
    constructor; [exact (P v eq_refl) | constructor].
  - apply IH. exact H.
Qed.

Lemma contents_loop_prefix (L : library) (contents : list json) :
  forall st : walk_state,
  Forall has_prefix (fst st) ->
  Forall has_prefix (fst (fst (contents_loop L contents st))).
Proof.
  induction contents as [|c rest IH]; intros st H; [exact H|].
  cbn [contents_loop].
  match goal with
  | |- context [match ?r with Ok _ => _ | Raise _ => _ end] =>
      destruct r as [items|]; [|exact H]
  end.
  pose proof (items_loop_prefix L items st H) as Hi.
  destruct (items_loop L items st) as [st' [e|]]; cbn [fst] in *;
    [exact Hi | exact (IH st' Hi)].
Qed.

Lemma tabs_loop_prefix (L : library) (tabs : list json) :
  forall st : walk_state,
  Forall has_prefix (fst st) ->
  Forall has_prefix (fst (fst (tabs_loop L tabs st))).
Proof.
  induction tabs as [|tab rest IH]; intros st H; [exact H|].
  cbn [tabs_loop].
  destruct (dict_get tab "tabRenderer" (JDict [])) as [tr|]; cbn [bind];
    [|exact H].
  destruct (dict_get tr "title" JNull) as [title|]; cbn [bind]; [|exact H].
  destruct (eq_str title "Videos"); [|exact (IH st H)].
  unfold videos_tab.
  match goal with
  | |- context [match ?r with Ok _ => _ | Raise _ => _ end] =>
      destruct r as [contents|]; [|exact H]
  end.
  exact (contents_loop_prefix L contents st H).
Qed.

Lemma walk_prefix (L : library) (data : json) :
  Forall has_prefix (fst (fst (walk L data))).
Proof.
  unfold walk.
  match goal with
  | |- context [match ?r with Ok _ => _ | Raise _ => _ end] =>
      destruct r as [[tabs|]|]; try constructor
  end.
  destruct (negb (truthy tabs)); [constructor|].
  destruct (py_iter tabs) as [l|]; [|constructor].
  apply tabs_loop_prefix. constructor.
Qed.

(** X5: whatever the parsed value, every record [extract_videos_from_json]
    returns has a URL that starts with
    [https://www.youtube.com/watch?v=]. *)
Theorem extract_videos_from_json_prefix (L : library) (data : json) :
  exists videos : list video,
    snd (extract_videos_from_json L data) = Ok videos
    /\ Forall (fun v => startswith (url v) watch_prefix = true) videos.
Proof.
  exists (fst (fst (walk L data))).
  split; [apply extract_videos_from_json_ok | apply walk_prefix].
Qed.

Lemma items_loop_item (L : library) (g : string) (rest : list json)
  (st : walk_state) :
  items_loop L (item_of g :: rest) st
  = items_loop L rest
      (if str_truthy g then fst st ++ [video_of g] else fst st,
       snd st ++ []).
Proof. destruct g; reflexivity. Qed.

Lemma items_loop_ids (L : library) (ids : list string) :
  forall st : walk_state,
  items_loop L (map item_of ids) st
  = ((fst st ++ map video_of (filter str_truthy ids), snd st), None).
Proof.
  induction ids as [|g ids IH]; intros [videos printed].
  - cbn. rewrite app_nil_r. reflexivity.
  - cbn [map filter]. rewrite items_loop_item, IH. cbn [fst snd].
    rewrite app_nil_r. destruct (str_truthy g); [|reflexivity].
    rewrite <- app_assoc. reflexivity.
Qed.

(** X6: for a blob whose tab titled ['Videos'] holds one grid of items,
    each with a string identifier, the walker returns one record per
    non-empty identifier, in the order of the document and with
    repetitions kept; tab objects with other titles before that tab and
    anything after it change nothing. *)
Theorem extract_videos_from_json_document_order
  (L : library) (pre post : list json) (ids : list string) :
  forallb other_tab pre = true ->
  extract_videos_from_json L
    (channel_blob
       (pre ++ tab_of "Videos" (grid_of (map item_of ids)) :: post))
  = ([], Ok (map video_of (filter str_truthy ids))).
Proof.
  intros Hpre. unfold extract_videos_from_json.
  assert (W : walk L (channel_blob
                (pre ++ tab_of "Videos" (grid_of (map item_of ids)) :: post))
              = tabs_loop L
                  (pre ++ tab_of "Videos" (grid_of (map item_of ids)) :: post)
                  ([], [])).
  { destruct pre; reflexivity. }
  rewrite W, (tabs_loop_skip L pre _ _ Hpre).
  assert (T : tabs_loop L
                (tab_of "Videos" (grid_of (map item_of ids)) :: post) ([], [])
              = match items_loop L (map item_of ids) ([], []) with
                | (st', None) => (st', None)
                | (st', Some e) => (st', Some e)
                end) by reflexivity.
  rewrite T, items_loop_ids. reflexivity.
Qed.

Lemma extract_videos_from_json_document_order_witness :
  extract_videos_from_json toy_library
    (channel_blob
       ([tab_of "Home" (grid_of [item_of "h"])]
        ++ tab_of "Videos"
             (grid_of (map item_of ["b"; EmptyString; "a"; "b"]))
        :: [tab_of "Live" (grid_of [item_of "l"])]))
  = ([], Ok (map video_of (filter str_truthy ["b"; EmptyString; "a"; "b"]))).
Proof.
  apply (extract_videos_from_json_document_order toy_library
           [tab_of "Home" (grid_of [item_of "h"])]
           [tab_of "Live" (grid_of [item_of "l"])]
           ["b"; EmptyString; "a"; "b"]).
  reflexivity.
Defined.

(** ** [parse_youtube_html], [main] and the script *)

Lemma scripts_loop_skip_all (L : library) (pre rest : list tag) :
  (forall s, In s pre -> script_data L s = Ok None) ->
  scripts_loop L (pre ++ rest) = scripts_loop L rest.
Proof.
  induction pre as [|s pre IH]; intros H; [reflexivity|].
  cbn [app]. rewrite (scripts_loop_skip L s _ (H s (or_introl eq_refl))).
  apply IH. intros t Ht. apply H. right. exact Ht.
Qed.

Lemma scripts_loop_data (L : library) (script : tag) (rest : list tag)
  (data : json) :
  script_data L script = Ok (Some data) ->
  scripts_loop L (script :: rest)
  = match extract_videos_from_json L data with
    | (printed, Raise e) => (printed, Raise e)
    | (printed, Ok (v :: vs)) => (printed, Ok (Some (v :: vs)))
    | (printed, Ok []) =>
        let (printed', r) := scripts_loop L rest in (printed ++ printed', r)
    end.
Proof.
  unfold script_data. cbn [scripts_loop].
  destruct (has_marker script) as [content|]; [|discriminate].
  destruct (extract_blob content) as [blob|]; [|discriminate].
  intros ->. destruct (extract_videos_from_json L data) as [p [[|v vs]|e]];
    reflexivity.
Qed.

(** X7: the first script segment whose blob parses and yields records
    decides the result: segments before it without a parsed blob are
    passed over, and the segments after it and the links of the page are
    not looked at. *)
Theorem parse_youtube_html_first_blob
  (L : library) (files : filesystem) (path page : string)
  (pre rest : list tag) (script : tag) (data : json)
  (printed : list line) (v : video) (vs : list video) :
  files path = Text page ->
  find_all (BeautifulSoup L page) "script" = pre ++ script :: rest ->
  (forall s, In s pre -> script_data L s = Ok None) ->
  script_data L script = Ok (Some data) ->
  extract_videos_from_json L data = (printed, Ok (v :: vs)) ->
  parse_youtube_html L files path = (printed, Ok (v :: vs)).
Proof.
  intros F S Hpre D E. unfold parse_youtube_html.
  rewrite F, S, (scripts_loop_skip_all L pre _ Hpre).
  rewrite (scripts_loop_data L script rest data D), E. reflexivity.
Qed.

Lemma parse_youtube_html_first_blob_witness :
  parse_youtube_html
    (blob_library (channel_blob [tab_of "Videos" (grid_of [item_of "a"])]))
    toy_files "page.html"
  = ([], Ok [video_of "a"]).
Proof.
  apply (parse_youtube_html_first_blob
           (blob_library
              (channel_blob [tab_of "Videos" (grid_of [item_of "a"])]))
           toy_files "page.html" "page" []
           [] (script_tag "var ytInitialData = {x};")
           (channel_blob [tab_of "Videos" (grid_of [item_of "a"])])).
  - reflexivity.
  - reflexivity.
  - intros s [].
  - reflexivity.
  - reflexivity.
Defined.




Lemma str_app_assoc (a b c : string) :
  ((a ++ b) ++ c)%string = (a ++ b ++ c)%string.
Proof. induction a as [|x a IH]; cbn [append]; [|rewrite IH]; reflexivity. Qed.

Lemma startswith_split (p : string) :
  forall t : string,
  startswith t p = true -> t = (p ++ skip (String.length p) t)%string.
Proof.
  induction p as [|a p IH]; intros t H; [reflexivity|].
  destruct t as [|b t]; [discriminate|]. cbn [startswith] in H.
  apply andb_true_iff in H. destruct H as [E H].
  apply Ascii.eqb_eq in E. subst b.
  cbn [String.length skip append]. rewrite <- (IH t H). reflexivity.
Qed.

Lemma find_from_cons (sub : string) (c : ascii) (t : string) (i : nat) :
  find_from sub (String c t) i
  = if startswith (String c t) sub then Some i else find_from sub t (S i).
Proof. reflexivity. Qed.

Lemma find_from_split (sub : string) (t : string) :
  forall i j : nat,
  find_from sub t i = Some j ->
  exists k, j = i + k
            /\ String.length (take k t) = k
            /\ t = (take k t ++ sub ++ skip (k + String.length sub) t)%string.
Proof.
  induction t as [|c t IH]; intros i j H.
  - cbn [find_from] in H.
    destruct (startswith EmptyString sub) eqn:Hs; [|discriminate].
    injection H as <-. exists 0. split; [lia|]. split; [reflexivity|].
    exact (startswith_split sub _ Hs).
  - rewrite find_from_cons in H.
    destruct (startswith (String c t) sub) eqn:Hs.
    + injection H as <-. exists 0. split; [lia|]. split; [reflexivity|].
      exact (startswith_split sub _ Hs).
    + destruct (IH _ _ H) as (k & -> & Lk & E). exists (S k). split; [lia|].
      split; [cbn [take String.length]; rewrite Lk; reflexivity|].
      cbn [take skip Nat.add append]. rewrite <- E. reflexivity.
Qed.

Lemma startswith_app (p r : string) : startswith (p ++ r) p = true.
Proof.
  induction p as [|a p IH]; [destruct r; reflexivity|].
  cbn [append startswith]. rewrite Ascii.eqb_refl, IH. reflexivity.
Qed.

(** [find] returns the place of the first occurrence: no occurrence
    starts before it. *)
Lemma find_from_first (sub : string) (t : string) :
  forall (i j : nat) (pre rest : string),
  find_from sub t i = Some j ->
  t = (pre ++ sub ++ rest)%string ->
  j <= i + String.length pre.
Proof.
  induction t as [|c t IH]; intros i j pre rest H E.
  - cbn [find_from] in H.
    destruct (startswith EmptyString sub); [|discriminate].
    injection H as <-. lia.
  - rewrite find_from_cons in H.
    destruct (startswith (String c t) sub) eqn:Hs.
    + injection H as <-. lia.
    + destruct pre as [|a pre].
      * cbn [append] in E. rewrite E, startswith_app in Hs. discriminate Hs.
      * cbn [append] in E. injection E as _ E.
        pose proof (IH _ _ _ _ H E) as Hle. cbn [String.length]. lia.
Qed.

(** The text taken up to the first [end_marker]: it ends with the brace
    and the marker does not occur in it. *)
Lemma find_from_brace (t : string) :
  forall i j : nat,
  find_from end_marker t i = Some j ->
  exists k body rest,
    j = i + k
    /\ t = (body ++ "};" ++ rest)%string
    /\ take (k + 1) t = (body ++ "}")%string
    /\ str_in end_marker (body ++ "}") = false.
Proof.
  induction t as [|c t IH]; intros i j H.
  - discriminate.
  - rewrite find_from_cons in H.
    destruct (startswith (String c t) end_marker) eqn:Hs.
    + injection H as <-. exists 0, EmptyString, (skip 2 (String c t)).
      split; [lia|]. split; [exact (startswith_split end_marker _ Hs)|].
      split; [|reflexivity]. cbn [startswith end_marker] in Hs.
      apply andb_true_iff in Hs. destruct Hs as [E _].
      apply Ascii.eqb_eq in E. subst c. reflexivity.
    + destruct (IH _ _ H) as (k & body & rest & -> & E & Tk & N).
      exists (S k), (String c body), rest. split; [lia|].
      split; [rewrite E at 1; reflexivity|].
      split; [cbn [Nat.add take]; rewrite Tk; reflexivity|].
      cbn [append str_in]. rewrite N.
      replace (startswith (String c (body ++ "}")) end_marker) with false;
        [reflexivity|].
      rewrite E in Hs. unfold end_marker in *. cbn [startswith] in Hs |- *.
      destruct (Ascii.eqb c "}"); [|reflexivity]. cbn [andb] in Hs |- *.
      destruct body as [|b body]; [reflexivity|]. cbn [append] in Hs |- *.
      rewrite andb_true_r in Hs |- *. symmetry. exact Hs.
Qed.

(** X9: the blob [extract_blob] cuts out of a script segment stands right
    after the first start marker of the text (no start marker begins
    before the one the blob follows) and is followed by [;]; it ends with
    a closing brace, and the sequence [};] does not occur inside it: the
    cut is made at the first [};] after the marker, whatever braces the
    text holds. *)
Theorem extract_blob_shape (script_content blob : string) :
  extract_blob script_content = Some blob ->
  exists pre body rest,
    script_content = (pre ++ start_marker ++ blob ++ ";" ++ rest)%string
    /\ (forall pre' rest',
           script_content = (pre' ++ start_marker ++ rest')%string ->
           String.length pre <= String.length pre')
    /\ blob = (body ++ "}")%string
    /\ str_in end_marker blob = false.
Proof.
  unfold extract_blob, str_find, slice.
  assert (L0 : Nat.ltb (String.length script_content) 0 = false)
    by (apply Nat.ltb_ge; lia).
  rewrite L0. cbn [skip].
  destruct (find_from start_marker script_content 0) as [i|] eqn:F1;
    [|discriminate].
  pose proof (fun pre rest => find_from_first _ _ _ _ pre rest F1) as First.
  destruct (find_from_split _ _ _ _ F1) as (k & -> & Lk & E1).
  cbn [Nat.add] in *.
  destruct (Nat.ltb (String.length script_content)
              (k + String.length start_marker)); [discriminate|].
  destruct (find_from end_marker
              (skip (k + String.length start_marker) script_content)
              (k + String.length start_marker)) as [j|] eqn:F2;
    [|discriminate].
  destruct (find_from_brace _ _ _ F2) as (k2 & body & rest & -> & E2 & Tk & N).
  intros [= <-]. change (String.length start_marker) with 20 in *.
  replace (k + 20 + k2 + 1 - (k + 20)) with (k2 + 1) by lia.
  rewrite Tk. exists (take k script_content), body, rest.
  split; [|split; [|split; [reflexivity | exact N]]].
  - rewrite E1 at 1. rewrite E2. rewrite !str_app_assoc. reflexivity.
  - intros pre' rest' E. rewrite Lk. exact (First pre' rest' E).
Qed.

Lemma extract_blob_shape_witness :
  exists pre body rest,
    "x = 1; var ytInitialData = {k:[};]}; var ytInitialData = {};"
    = (pre ++ start_marker ++ "{k:[}" ++ ";" ++ rest)%string
    /\ (forall pre' rest',
           "x = 1; var ytInitialData = {k:[};]}; var ytInitialData = {};"
           = (pre' ++ start_marker ++ rest')%string ->
           String.length pre <= String.length pre')
    /\ "{k:[}" = (body ++ "}")%string
    /\ str_in end_marker "{k:[}" = false.
Proof.
  apply (extract_blob_shape
           "x = 1; var ytInitialData = {k:[};]}; var ytInitialData = {};").
  reflexivity.
Defined.









(** ** [load_json_file] and [find_url_differences] *)

Lemma url_differences_nonnull (data1 data2 : json) :
  data1 <> JNull -> data2 <> JNull ->
  url_differences data1 data2
  = (urls1 <- extract_urls data1 ;;
     urls2 <- extract_urls data2 ;;
     s1 <- py_sorted (set_difference urls1 urls2) ;;
     s2 <- py_sorted (set_difference urls2 urls1) ;;
     sc <- py_sorted (set_intersection urls1 urls2) ;;
     Ok (Some {| only_in_file1 := s1;
                 only_in_file2 := s2;
                 common_urls := sc;
                 file1_count := List.length urls1;
                 file2_count := List.length urls2;
                 common_count :=
                   List.length (set_intersection urls1 urls2) |})).
Proof.
  intros H1 H2.
  destruct data1; try contradiction; destruct data2; try contradiction;
    reflexivity.
Qed.

Lemma url_differences_some (data1 data2 : json) :
  data1 <> JNull -> data2 <> JNull ->
  url_differences data1 data2 <> Ok None.
Proof.
  intros H1 H2. rewrite (url_differences_nonnull _ _ H1 H2).
  destruct (extract_urls data1) as [u1|]; cbn [bind]; [|discriminate].
  destruct (extract_urls data2) as [u2|]; cbn [bind]; [|discriminate].
  destruct (py_sorted (set_difference u1 u2)); cbn [bind]; [|discriminate].
  destruct (py_sorted (set_difference u2 u1)); cbn [bind]; [|discriminate].
  destruct (py_sorted (set_intersection u1 u2)); cbn [bind]; discriminate.
Qed.

Lemma url_differences_null (data1 data2 : json) :
  data1 = JNull \/ data2 = JNull -> url_differences data1 data2 = Ok None.
Proof.
  intros [-> | ->]; [reflexivity|]. destruct data1; reflexivity.
Qed.

(** X12: when both files can be opened or are missing,
    [find_url_differences] returns [None] exactly when one of the two
    loads gave [None]: a missing file, a file that is not JSON, or a file
    that holds the JSON value [null]; both files are loaded first, so the
    lines of both loads are printed. *)
Theorem find_url_differences_none (L : library) (files : filesystem)
  (file1 file2 : string) (p1 p2 : list line) (data1 data2 : json) :
  load_json_file L files file1 = (p1, Ok data1) ->
  load_json_file L files file2 = (p2, Ok data2) ->
  fst (find_url_differences L files file1 file2) = p1 ++ p2
  /\ (snd (find_url_differences L files file1 file2) = Ok None
      <-> data1 = JNull \/ data2 = JNull).
Proof.
  intros E1 E2. unfold find_url_differences. rewrite E1, E2. cbn [fst snd].
  split; [reflexivity|]. split.
  - intros H. destruct data1; try (left; reflexivity);
      destruct data2; try (right; reflexivity);
      exfalso; revert H; apply url_differences_some; discriminate.
  - apply url_differences_null.
Qed.

Lemma find_url_differences_none_witness :
  fst (find_url_differences toy_library toy_files "gone.json" "page.html")
  = [ErrJsonNotFound "gone.json"] ++ [ErrInvalidJson "page.html"]
  /\ (snd (find_url_differences toy_library toy_files "gone.json" "page.html")
      = Ok None
      <-> JNull = JNull \/ JNull = JNull).
Proof.
  apply (find_url_differences_none toy_library toy_files
           "gone.json" "page.html"); reflexivity.
Defined.

(** *** The report on two collections *)

Lemma filter_split_length {X : Type} (keep : X -> bool) (l : list X) :
  List.length l
  = List.length (filter (fun x => negb (keep x)) l)
    + List.length (filter keep l).
Proof.
  induction l as [|x l IH]; [reflexivity|]. cbn [filter].
  destruct (keep x); cbn [negb List.length]; lia.
Qed.

Lemma NoDup_same_length (l1 l2 : list string) :
  NoDup l1 -> NoDup l2 -> (forall u, In u l1 <-> In u l2) ->
  List.length l1 = List.length l2.
Proof.
  intros N1 N2 H. apply Nat.le_antisymm; apply NoDup_incl_length;
    try assumption; intros u Hu; apply H; exact Hu.
Qed.

Lemma str_intersection_length (a b : list string) :
  NoDup a -> NoDup b ->
  List.length (str_intersection a b)
  = List.length (filter (fun u => str_mem u b) a).
Proof.
  intros Na Nb. unfold str_intersection.
  destruct (Nat.ltb (List.length a) (List.length b)); [reflexivity|].
  apply NoDup_same_length; try (apply NoDup_filter; assumption).
  intros u. rewrite !filter_In, !str_mem_In. tauto.
Qed.

Lemma str_intersection_length_sym (a b : list string) :
  NoDup a -> NoDup b ->
  List.length (str_intersection a b) = List.length (str_intersection b a).
Proof.
  intros Na Nb. apply NoDup_same_length;
    try (apply str_intersection_NoDup; assumption).
  intros u. rewrite !str_intersection_In. tauto.
Qed.

(** X13: in the report on two collections the counts add up: the count of
    each file is the number of URLs only in that file plus the number of
    common URLs, and [common_count] is the length of [common_urls]. *)
Theorem find_url_differences_counts (L : library) (files : filesystem)
  (file1 file2 text1 text2 : string) (data1 data2 : json) :
  files file1 = Text text1 -> json_loads L text1 = Ok (Some data1) ->
  is_collection data1 = true ->
  files file2 = Text text2 -> json_loads L text2 = Ok (Some data2) ->
  is_collection data2 = true ->
  exists r : report,
    find_url_differences L files file1 file2 = ([], Ok (Some r))
    /\ file1_count r = List.length (only_in_file1 r) + common_count r
    /\ file2_count r = List.length (only_in_file2 r) + common_count r
    /\ common_count r = List.length (common_urls r).
Proof.
  intros F1 J1 C1 F2 J2 C2.
  rewrite (find_url_differences_collections L files _ _ _ _ _ _ F1 J1 F2 J2).
  rewrite (url_differences_collections _ _ C1 C2).
  pose proof (url_set_NoDup data1) as N1.
  pose proof (url_set_NoDup data2) as N2.
  eexists. split; [reflexivity|].
  cbn [only_in_file1 only_in_file2 common_urls
       file1_count file2_count common_count].
  rewrite !length_map, !str_sort_length.
  split; [|split; [|reflexivity]].
  - rewrite (str_intersection_length _ _ N1 N2). unfold str_difference.
    apply filter_split_length.
  - rewrite (str_intersection_length_sym _ _ N1 N2).
    rewrite (str_intersection_length _ _ N2 N1). unfold str_difference.
    apply filter_split_length.
Qed.

Lemma find_url_differences_counts_witness :
  exists r : report,
    find_url_differences toy_library toy_files "first.json" "second.json"
    = ([], Ok (Some r))
    /\ file1_count r = List.length (only_in_file1 r) + common_count r
    /\ file2_count r = List.length (only_in_file2 r) + common_count r
    /\ common_count r = List.length (common_urls r).
Proof.
  apply (find_url_differences_counts toy_library toy_files
           "first.json" "second.json" "doc-AB" "doc-BC"
           (collection_of ["B"; "A"; "B"]) (collection_of ["B"; "C"]));
    reflexivity.
Defined.

Lemma str_sort_nil (l : list string) : str_sort l = [] <-> l = [].
Proof.
  split; [|intros ->; reflexivity].
  intros H. apply (f_equal (@List.length string)) in H.
  rewrite str_sort_length in H. destruct l; [reflexivity | discriminate].
Qed.

Lemma str_difference_nil (a b : list string) :
  str_difference a b = [] <-> (forall u, In u a -> In u b).
Proof.
  split.
  - intros H u Hu. destruct (str_mem u b) eqn:E; [apply str_mem_In, E|].
    exfalso. apply str_mem_false in E.
    assert (Hin : In u (str_difference a b))
      by (apply str_difference_In; auto).
    rewrite H in Hin. exact Hin.
  - intros H. destruct (str_difference a b) as [|u l] eqn:E; [reflexivity|].
    exfalso. assert (Hin : In u (str_difference a b))
      by (rewrite E; left; reflexivity).
    apply str_difference_In in Hin. destruct Hin as [Ha Hb]. auto.
Qed.

Lemma map_JStr_nil (l : list string) : map JStr l = [] <-> l = [].
Proof. destruct l; split; intros H; try reflexivity; discriminate. Qed.

(** X14: the report on two collections has both difference sequences
    empty exactly when the two files hold the same set of URLs, whatever
    the order and the repetitions of their records. *)
Theorem find_url_differences_identical (L : library) (files : filesystem)
  (file1 file2 text1 text2 : string) (data1 data2 : json) :
  files file1 = Text text1 -> json_loads L text1 = Ok (Some data1) ->
  is_collection data1 = true ->
  files file2 = Text text2 -> json_loads L text2 = Ok (Some data2) ->
  is_collection data2 = true ->
  exists r : report,
    find_url_differences L files file1 file2 = ([], Ok (Some r))
    /\ (only_in_file1 r = [] /\ only_in_file2 r = []
        <-> forall u, In u (collection_urls data1)
                      <-> In u (collection_urls data2)).
Proof.
  intros F1 J1 C1 F2 J2 C2.
  rewrite (find_url_differences_collections L files _ _ _ _ _ _ F1 J1 F2 J2).
  rewrite (url_differences_collections _ _ C1 C2).
  eexists. split; [reflexivity|]. cbn [only_in_file1 only_in_file2].
  rewrite !map_JStr_nil, !str_sort_nil, !str_difference_nil.
  split.
  - intros [H12 H21] u. rewrite <- !url_set_In. split; auto.
  - intros H. split; intros u; rewrite !url_set_In; apply H.
Qed.

Lemma find_url_differences_identical_witness :
  exists r : report,
    find_url_differences toy_library toy_files "first.json" "first.json"
    = ([], Ok (Some r))
    /\ (only_in_file1 r = [] /\ only_in_file2 r = []
        <-> forall u, In u (collection_urls (collection_of ["B"; "A"; "B"]))
                      <-> In u (collection_urls (collection_of ["B"; "A"; "B"]))).
Proof.
  apply (find_url_differences_identical toy_library toy_files
           "first.json" "first.json" "doc-AB" "doc-AB"
           (collection_of ["B"; "A"; "B"]) (collection_of ["B"; "A"; "B"]));
    reflexivity.
Defined.

Lemma sorted_same (a b : list string) :
  NoDup a -> NoDup b -> (forall u, In u a <-> In u b) ->
  str_sort a = str_sort b.
Proof.
  intros Na Nb H. apply sorted_unique; try (apply str_sort_sorted; assumption).
  intros u. rewrite !str_sort_In. apply H.
Qed.

(** X15: the report depends on the URL sets only: a collection with the
    same URLs in another order, or with records repeated, gives the same
    report, on either side. *)
Theorem url_differences_same_sets (data1 data1' data2 data2' : json) :
  is_collection data1 = true -> is_collection data1' = true ->
  is_collection data2 = true -> is_collection data2' = true ->
  (forall u, In u (collection_urls data1) <-> In u (collection_urls data1')) ->
  (forall u, In u (collection_urls data2) <-> In u (collection_urls data2')) ->
  url_differences data1 data2 = url_differences data1' data2'.
Proof.
  intros C1 C1' C2 C2' H1 H2.
  rewrite (url_differences_collections _ _ C1 C2).
  rewrite (url_differences_collections _ _ C1' C2').
  pose proof (url_set_NoDup data1) as N1.
  pose proof (url_set_NoDup data1') as N1'.
  pose proof (url_set_NoDup data2) as N2.
  pose proof (url_set_NoDup data2') as N2'.
  assert (S1 : forall u, In u (url_set data1) <-> In u (url_set data1'))
    by (intros u; rewrite !url_set_In; apply H1).
  assert (S2 : forall u, In u (url_set data2) <-> In u (url_set data2'))
    by (intros u; rewrite !url_set_In; apply H2).
  assert (E12 : str_sort (str_difference (url_set data1) (url_set data2))
                = str_sort (str_difference (url_set data1') (url_set data2'))).
  { apply sorted_same; try (apply str_difference_NoDup; assumption).
    intros u. rewrite !str_difference_In, (S1 u), (S2 u). reflexivity. }
  assert (E21 : str_sort (str_difference (url_set data2) (url_set data1))
                = str_sort (str_difference (url_set data2') (url_set data1'))).
  { apply sorted_same; try (apply str_difference_NoDup; assumption).
    intros u. rewrite !str_difference_In, (S1 u), (S2 u). reflexivity. }
  assert (Ec : str_sort (str_intersection (url_set data1) (url_set data2))
               = str_sort (str_intersection (url_set data1') (url_set data2'))).
  { apply sorted_same; try (apply str_intersection_NoDup; assumption).
    intros u. rewrite !str_intersection_In, (S1 u), (S2 u). reflexivity. }
  rewrite E12, E21, Ec.
  rewrite (NoDup_same_length _ _ N1 N1' S1), (NoDup_same_length _ _ N2 N2' S2).
  rewrite <- (str_sort_length (str_intersection (url_set data1) _)), Ec.
  rewrite str_sort_length. reflexivity.
Qed.

Lemma url_differences_same_sets_witness :
  url_differences (collection_of ["B"; "A"; "B"]) (collection_of ["B"; "C"])
  = url_differences (collection_of ["A"; "B"]) (collection_of ["C"; "B"; "C"]).
Proof.
  apply url_differences_same_sets; try reflexivity;
    intros u; simpl; tauto.
Defined.

(** ** The differ's [main] *)

Lemma find_url_differences_some (L : library) (fs : filesystem)
  (p1 p2 : string) (results : report) :
  snd (find_url_differences L fs p1 p2) = Ok (Some results)
  <-> exists data1 data2,
        holds L fs p1 data1 /\ holds L fs p2 data2
        /\ url_differences data1 data2 = Ok (Some results).
Proof.
  unfold find_url_differences, load_json_file, holds. split.
  - destruct (fs p1) as [| |t1] eqn:F1; [|discriminate|].
    + destruct (fs p2) as [| |t2]; cbn; try discriminate.
      destruct (json_loads L t2) as [[d|]|e]; cbn; discriminate.
    + destruct (json_loads L t1) as [[data1|]|e1] eqn:J1; [| |discriminate].
      * destruct (fs p2) as [| |t2] eqn:F2; cbn [snd].
        -- rewrite url_differences_null by (right; reflexivity). discriminate.
        -- discriminate.
        -- destruct (json_loads L t2) as [[data2|]|e2] eqn:J2; cbn [snd].
           ++ intros H. exists data1, data2. eauto 7.
           ++ rewrite url_differences_null by (right; reflexivity).
              discriminate.
           ++ discriminate.
      * destruct (fs p2) as [| |t2]; cbn; try discriminate.
        destruct (json_loads L t2) as [[d|]|e]; cbn; discriminate.
  - intros (data1 & data2 & (t1 & F1 & J1) & (t2 & F2 & J2) & H).
    rewrite F1, J1, F2, J2. exact H.
Qed.

Lemma diff_main_exists (L : library) (args : diff_namespace) (w : diff_world) :
  exists_ w (file1 args) = true -> exists_ w (file2 args) = true ->
  diff_main L args w
  = let (loading, r) :=
      find_url_differences L (files w) (file1 args) (file2 args) in
    let w := diff_print w (map Loading loading) in
    match r with
    | Raise e => (w, Raise e)
    | Ok None => (w, Ok 1%Z)
    | Ok (Some results) =>
        let w :=
          diff_print w
            (if quiet args then quiet_lines results
             else print_results L results (file1 args) (file2 args)) in
        let w :=
          match output args with
          | Some output_file =>
              if str_truthy output_file
              then save_results_to_json L results output_file w
              else w
          | None => w
          end in
        (w, Ok 0%Z)
    end.
Proof. intros E1 E2. unfold diff_main. rewrite E1, E2. reflexivity. Qed.

(** The value the body of [main] returns, as an exit status. *)
Lemma diff_main_status (L : library) (args : diff_namespace)
  (w : diff_world) :
  (exit_status (snd (diff_main L args w)) = 0%Z
   \/ exit_status (snd (diff_main L args w)) = 1%Z)
  /\ (exit_status (snd (diff_main L args w)) = 0%Z
      <-> exists_ w (file1 args) = true /\ exists_ w (file2 args) = true
          /\ exists data1 data2 results,
               holds L (files w) (file1 args) data1
               /\ holds L (files w) (file2 args) data2
               /\ url_differences data1 data2 = Ok (Some results))
  /\ (exit_status (snd (diff_main L args w)) = 1%Z
      -> files (fst (diff_main L args w)) = files w
         /\ saved (fst (diff_main L args w)) = saved w).
Proof.
  unfold diff_main.
  destruct (exists_ w (file1 args)) eqn:E1; cbn [negb].
  2: { cbn. split; [right; reflexivity|]. split; [|split; reflexivity].
       split; [discriminate | intros (H & _); discriminate]. }
  destruct (exists_ w (file2 args)) eqn:E2; cbn [negb].
  2: { cbn. split; [right; reflexivity|]. split; [|split; reflexivity].
       split; [discriminate | intros (_ & H & _); discriminate]. }
  pose proof (find_url_differences_some L (files w) (file1 args) (file2 args))
    as FS.
  destruct (find_url_differences L (files w) (file1 args) (file2 args))
    as [loading [[results|]|e]]; cbn [snd] in FS; cbn [fst snd exit_status].
  - split; [left; reflexivity|]. split; [|discriminate].
    split; [|reflexivity]. intros _. split; [reflexivity|].
    split; [reflexivity|].
    destruct (proj1 (FS results) eq_refl) as (d1 & d2 & H).
    exists d1, d2, results. exact H.
  - split; [right; reflexivity|]. split; [|split; reflexivity].
    split; [discriminate|].
    intros (_ & _ & d1 & d2 & results & H).
    assert (C : @Ok (option report) None = Ok (Some results))
      by (apply FS; exists d1, d2; exact H).
    discriminate C.
  - split; [right; reflexivity|]. split; [|split; reflexivity].
    split; [discriminate|].
    intros (_ & _ & d1 & d2 & results & H).
    assert (C : @Raise (option report) e = Ok (Some results))
      by (apply FS; exists d1, d2; exact H).
    discriminate C.
Qed.

(** X16: the differ exits with status [2] exactly when [argparse]
    rejects the command line, and with status [0] exactly when
    [argparse] prints the help, or when both paths exist, both files hold
    JSON text and the comparison of the two values gives a report; in
    every other case (a path that does not exist, a file that cannot be
    read or is not JSON, the JSON value [null], an exception) the status
    is [1].  A run that does not end with status [0] saves nothing and
    leaves every file as it was. *)
Theorem diff_script_exit_status (L : library)
  (parser : list string -> parsed) (argv : list string) (w : diff_world) :
  (snd (diff_script L parser argv w) = 0%Z
   \/ snd (diff_script L parser argv w) = 1%Z
   \/ snd (diff_script L parser argv w) = 2%Z)
  /\ (snd (diff_script L parser argv w) = 2%Z
      <-> parser (tl argv) = Rejected)
  /\ (snd (diff_script L parser argv w) = 0%Z
      <-> parser (tl argv) = Help
          \/ exists args,
               parser (tl argv) = Parsed args
               /\ exists_ w (file1 args) = true
               /\ exists_ w (file2 args) = true
               /\ exists data1 data2 results,
                    holds L (files w) (file1 args) data1
                    /\ holds L (files w) (file2 args) data2
                    /\ url_differences data1 data2 = Ok (Some results))
  /\ (snd (diff_script L parser argv w) <> 0%Z
      -> files (fst (diff_script L parser argv w)) = files w
         /\ saved (fst (diff_script L parser argv w)) = saved w).
Proof.
  unfold diff_script. destruct (parser (tl argv)) as [args| |].
  - destruct (diff_main_status L args w) as (S01 & S0 & S1).
    destruct (diff_main L args w) as [w' r]. cbn [fst snd] in *.
    split; [destruct S01 as [-> | ->]; auto|].
    split; [split; [intros E; destruct S01 as [H | H]; rewrite H in E;
                    discriminate E
                   | discriminate]|].
    split.
    + rewrite S0. split.
      * intros H. right. exists args. split; [reflexivity | exact H].
      * intros [H | (args' & [= <-] & H)]; [discriminate H | exact H].
    + intros N. apply S1. destruct S01 as [H | H]; [contradiction | exact H].
  - cbn. split; [left; reflexivity|].
    split; [split; discriminate|].
    split; [split; [left; reflexivity | reflexivity]|].
    intros N. contradiction.
  - cbn. split; [right; right; reflexivity|].
    split; [split; reflexivity|].
    split; [|split; reflexivity].
    split; [discriminate|].
    intros [H | (args & H & _)]; discriminate H.
Qed.

(** Three command lines: one that [argparse] rejects, the help, and two
    files that hold collections. *)
Example diff_script_statuses :
  diff_script toy_library toy_parser ["diff_json.py"; "first.json"]
    toy_diff_world
  = (toy_diff_world, 2%Z)
  /\ diff_script toy_library toy_parser ["diff_json.py"; "-h"] toy_diff_world
     = (diff_print toy_diff_world [MsgHelp], 0%Z)
  /\ snd (diff_script toy_library toy_parser
            ["diff_json.py"; "first.json"; "second.json"] toy_diff_world)
     = 0%Z
  /\ snd (diff_script toy_library toy_parser
            ["diff_json.py"; "first.json"; "gone.json"] toy_diff_world)
     = 1%Z.
Proof. repeat split. Qed.

(** *** What [print_results] lists *)

Lemma only_in_lines_urls (L : library) (path : string) (urls : list json)
  (u : string) :
  In (MsgUrl u) (only_in_lines L path urls)
  <-> In u (map (format_field L) urls).
Proof.
  unfold only_in_lines. destruct urls as [|x l]; [simpl; tauto|].
  set (us := x :: l). cbn [app]. split.
  - intros [H | [H | H]]; try discriminate.
    apply in_app_iff in H. destruct H as [H | [H | []]]; try discriminate.
    apply in_map_iff in H. destruct H as (v & Hv & Hin).
    injection Hv as <-. apply in_map. exact Hin.
  - intros H. right. right. apply in_app_iff. left.
    apply in_map_iff in H. destruct H as (v & <- & Hin).
    apply in_map_iff. exists v. split; [reflexivity | exact Hin].
Qed.

Lemma only_in_lines_identical (L : library) (path : string)
  (urls : list json) :
  ~ In MsgIdentical (only_in_lines L path urls).
Proof.
  unfold only_in_lines. destruct urls as [|x l]; [simpl; tauto|].
  set (us := x :: l). cbn [app].
  intros [H | [H | H]]; try discriminate.
  apply in_app_iff in H. destruct H as [H | [H | []]]; try discriminate.
  apply in_map_iff in H. destruct H as (v & Hv & _). discriminate Hv.
Qed.

Lemma print_results_urls (L : library) (results : report)
  (p1 p2 u : string) :
  In (MsgUrl u) (print_results L results p1 p2)
  <-> In u (map (format_field L) (only_in_file1 results))
      \/ In u (map (format_field L) (only_in_file2 results)).
Proof.
  unfold print_results. rewrite !in_app_iff, !only_in_lines_urls. split.
  - intros [H | [H | [H | H]]]; auto.
    + simpl in H. repeat (destruct H as [H | H]; try discriminate H).
      contradiction.
    + destruct (only_in_file1 results); destruct (only_in_file2 results);
        simpl in H; repeat (destruct H as [H | H]; try discriminate H);
        contradiction.
  - intros [H | H]; auto.
Qed.

Lemma print_results_identical (L : library) (results : report)
  (p1 p2 : string) :
  In MsgIdentical (print_results L results p1 p2)
  <-> only_in_file1 results = [] /\ only_in_file2 results = [].
Proof.
  unfold print_results. rewrite !in_app_iff. split.
  - intros [H | [H | [H | H]]].
    + simpl in H. repeat (destruct H as [H | H]; try discriminate H).
      contradiction.
    + exfalso. revert H. apply only_in_lines_identical.
    + exfalso. revert H. apply only_in_lines_identical.
    + destruct (only_in_file1 results); destruct (only_in_file2 results);
        simpl in H; try contradiction. split; reflexivity.
  - intros [-> ->]. right. right. right. left. reflexivity.
Qed.

Lemma format_field_str (L : library) (l : list string) :
  map (format_field L) (map JStr l) = l.
Proof.
  induction l as [|s l IH]; [reflexivity|]. cbn [map format_field].
  rewrite IH. reflexivity.
Qed.

(** The lines a run adds after the report: those of the save, if any. *)
Lemma diff_main_report (L : library) (args : diff_namespace) (w : diff_world)
  (loading : list line) (results : report) :
  exists_ w (file1 args) = true -> exists_ w (file2 args) = true ->
  find_url_differences L (files w) (file1 args) (file2 args)
  = (loading, Ok (Some results)) ->
  snd (diff_main L args w) = Ok 0%Z
  /\ exists tail_lines,
       printed (fst (diff_main L args w))
       = printed w ++ map Loading loading
         ++ (if quiet args then quiet_lines results
             else print_results L results (file1 args) (file2 args))
         ++ tail_lines
       /\ ((tail_lines = []
            /\ saved (fst (diff_main L args w)) = saved w
            /\ files (fst (diff_main L args w)) = files w
            /\ (output args = None \/ output args = Some EmptyString))
           \/ (exists o text,
                output args = Some o /\ o <> EmptyString
                /\ can_save L w o results = true
                /\ json_dump L (report_json results) = inr text
                /\ tail_lines = [MsgSaved o]
                /\ saved (fst (diff_main L args w)) = (o, results) :: saved w
                /\ files (fst (diff_main L args w))
                   = write_file (files w) o text)
           \/ (exists o,
                output args = Some o /\ o <> EmptyString
                /\ can_save L w o results = false
                /\ tail_lines = [ErrSaving]
                /\ saved (fst (diff_main L args w)) = saved w
                /\ (files (fst (diff_main L args w)) = files w
                    \/ exists text,
                         json_dump L (report_json results) = inl text
                         /\ files (fst (diff_main L args w))
                            = write_file (files w) o text))).
Proof.
  intros E1 E2 F. rewrite (diff_main_exists L args w E1 E2), F.
  destruct (output args) as [o|].
  - destruct o as [|c o].
    + cbn. split; [reflexivity|]. exists [].
      rewrite app_nil_r, <- !app_assoc. split; [reflexivity|].
      left. auto.
    + cbn [str_truthy]. unfold save_results_to_json.
      cbn [diff_print files exists_ openable printed saved].
      destruct (openable w (String c o)) eqn:Op.
      * destruct (json_dump L (report_json results)) as [text|text] eqn:Dm.
        -- cbn. split; [reflexivity|]. exists [ErrSaving].
           rewrite <- !app_assoc. split; [reflexivity|].
           right. right. exists (String c o).
           split; [reflexivity|]. split; [discriminate|].
           split; [unfold can_save; rewrite Op, Dm; reflexivity|].
           split; [reflexivity|].
           split; [reflexivity|]. right. exists text. split; reflexivity.
        -- cbn. split; [reflexivity|]. exists [MsgSaved (String c o)].
           rewrite <- !app_assoc. split; [reflexivity|].
           right. left. exists (String c o), text.
           split; [reflexivity|]. split; [discriminate|].
           split; [unfold can_save; rewrite Op, Dm; reflexivity|].
           repeat split; reflexivity.
      * cbn. split; [reflexivity|]. exists [ErrSaving].
        rewrite <- !app_assoc. split; [reflexivity|].
        right. right. exists (String c o).
        split; [reflexivity|]. split; [discriminate|].
        split; [unfold can_save; rewrite Op; reflexivity|].
        split; [reflexivity|].
        split; [reflexivity|]. left. reflexivity.
  - cbn. split; [reflexivity|]. exists [].
    rewrite app_nil_r, <- !app_assoc. split; [reflexivity|]. left. auto.
Qed.

(** The lines of a save are no URL line and not the line of identical
    files. *)
Lemma diff_main_report_tail (L : library) (args : diff_namespace)
  (w : diff_world) (loading : list line) (results : report) :
  exists_ w (file1 args) = true -> exists_ w (file2 args) = true ->
  find_url_differences L (files w) (file1 args) (file2 args)
  = (loading, Ok (Some results)) ->
  exists tail_lines,
    printed (fst (diff_main L args w))
    = printed w ++ map Loading loading
      ++ (if quiet args then quiet_lines results
          else print_results L results (file1 args) (file2 args))
      ++ tail_lines
    /\ (forall u, ~ In (MsgUrl u) tail_lines)
    /\ ~ In MsgIdentical tail_lines.
Proof.
  intros E1 E2 F.
  destruct (diff_main_report L args w _ _ E1 E2 F) as (_ & tl' & P & T).
  exists tl'. split; [exact P|].
  destruct T as [(-> & _) | [(o & text & _ & _ & _ & _ & -> & _)
                            | (o & _ & _ & _ & -> & _)]];
    (split; [intros u|]); simpl; intros H;
    repeat (destruct H as [H | H]; try discriminate H); contradiction.
Qed.

(** X17: without [--quiet], a run on two existing files that hold
    collections ends with status [0] and lists, as URL lines, exactly the
    URLs that are in one file and not in the other; the line saying that
    the files are identical is printed exactly when the two files hold
    the same set of URLs. *)
Theorem diff_main_lists_differences (L : library) (args : diff_namespace)
  (w : diff_world) (data1 data2 : json) :
  exists_ w (file1 args) = true -> exists_ w (file2 args) = true ->
  holds L (files w) (file1 args) data1 -> is_collection data1 = true ->
  holds L (files w) (file2 args) data2 -> is_collection data2 = true ->
  quiet args = false ->
  snd (diff_main L args w) = Ok 0%Z
  /\ exists lines,
       printed (fst (diff_main L args w)) = printed w ++ lines
       /\ (forall u,
             In (MsgUrl u) lines
             <-> (In u (collection_urls data1)
                  /\ ~ In u (collection_urls data2))
                 \/ (In u (collection_urls data2)
                     /\ ~ In u (collection_urls data1)))
       /\ (In MsgIdentical lines
           <-> forall u, In u (collection_urls data1)
                         <-> In u (collection_urls data2)).
Proof.
  intros E1 E2 (t1 & F1 & J1) C1 (t2 & F2 & J2) C2 Q.
  pose proof (find_url_differences_collections L (files w) _ _ _ _ _ _
                F1 J1 F2 J2) as F.
  rewrite (url_differences_collections _ _ C1 C2) in F.
  destruct (diff_main_report L args w _ _ E1 E2 F) as (R & _).
  destruct (diff_main_report_tail L args w _ _ E1 E2 F)
    as (tail_lines & P & NU & NI).
  split; [exact R|]. rewrite Q in P. cbn [map app] in P.
  eexists. split; [exact P|].
  split.
  - intros u. rewrite in_app_iff, print_results_urls.
    cbn [only_in_file1 only_in_file2].
    rewrite !format_field_str, !str_sort_In, !str_difference_In, !url_set_In.
    specialize (NU u). tauto.
  - rewrite in_app_iff, print_results_identical.
    cbn [only_in_file1 only_in_file2].
    rewrite !map_JStr_nil, !str_sort_nil, !str_difference_nil.
    split.
    + intros [[H12 H21] | H]; [|contradiction].
      intros u. rewrite <- !url_set_In. split; auto.
    + intros H. left. split; intros u; rewrite !url_set_In; apply H.
Qed.

Lemma diff_main_lists_differences_witness :
  snd (diff_main toy_library (toy_args None false) toy_diff_world) = Ok 0%Z
  /\ exists lines,
       printed (fst (diff_main toy_library (toy_args None false)
                       toy_diff_world))
       = printed toy_diff_world ++ lines
       /\ (forall u,
             In (MsgUrl u) lines
             <-> (In u (collection_urls (collection_of ["B"; "A"; "B"]))
                  /\ ~ In u (collection_urls (collection_of ["B"; "C"])))
                 \/ (In u (collection_urls (collection_of ["B"; "C"]))
                     /\ ~ In u (collection_urls
                                  (collection_of ["B"; "A"; "B"]))))
       /\ (In MsgIdentical lines
           <-> forall u,
                 In u (collection_urls (collection_of ["B"; "A"; "B"]))
                 <-> In u (collection_urls (collection_of ["B"; "C"]))).
Proof.
  apply (diff_main_lists_differences toy_library (toy_args None false)
           toy_diff_world);
    try reflexivity.
  - exists "doc-AB". split; reflexivity.
  - exists "doc-BC". split; reflexivity.
Defined.





(** X20: a save that fails does not fail the run: when the report is
    made and the file given with [-o] cannot be written, the error line
    of [save_results_to_json] is the last line printed, no save
    completes and [main] still returns [0]. *)
Theorem diff_main_failed_save (L : library) (args : diff_namespace)
  (w : diff_world) (o : string) (loading : list line) (results : report) :
  exists_ w (file1 args) = true -> exists_ w (file2 args) = true ->
  find_url_differences L (files w) (file1 args) (file2 args)
  = (loading, Ok (Some results)) ->
  output args = Some o -> o <> EmptyString ->
  can_save L w o results = false ->
  snd (diff_main L args w) = Ok 0%Z
  /\ saved (fst (diff_main L args w)) = saved w
  /\ exists lines,
       printed (fst (diff_main L args w)) = printed w ++ lines ++ [ErrSaving].
Proof.
  intros E1 E2 F O N Cs.
  destruct (diff_main_report L args w _ _ E1 E2 F)
    as (R & tail_lines & P & T).
  split; [exact R|].
  destruct T as [(_ & _ & _ & [O' | O'])
                | [(o' & text & O' & _ & Cs' & _)
                  | (o' & O' & _ & _ & -> & Sv & _)]].
  - rewrite O in O'. discriminate O'.
  - rewrite O in O'. injection O' as ->. contradiction.
  - rewrite O in O'. injection O' as <-. rewrite Cs in Cs'. discriminate Cs'.
  - split; [exact Sv|].
    exists (map Loading loading
            ++ (if quiet args then quiet_lines results
                else print_results L results (file1 args) (file2 args))).
    rewrite P, <- app_assoc. reflexivity.
Qed.

Lemma diff_main_failed_save_witness :
  snd (diff_main toy_library (toy_args (Some "out.json") true)
         read_only_world) = Ok 0%Z
  /\ saved (fst (diff_main toy_library (toy_args (Some "out.json") true)
                   read_only_world))
     = saved read_only_world
  /\ exists lines,
       printed (fst (diff_main toy_library (toy_args (Some "out.json") true)
                       read_only_world))
       = printed read_only_world ++ lines ++ [ErrSaving].
Proof.
  eapply (diff_main_failed_save toy_library (toy_args (Some "out.json") true)
            read_only_world "out.json");
    try reflexivity.
  discriminate.
Defined.
